(** * junos_exporter: the command/parse/map pipeline

    A shallow embedding of the interface collector (package [interfaces])
    and of the RPC client (package [rpc]) of junos_exporter, followed by
    the properties of the mapping rules.

    Conventions of the embedding.
    - A Go function returning [(v, err)] returns the pair [(v, err)] with
      [err : option error]; [None] is Go's [nil] error.  A nil slice is
      the empty list, a nil pointer is [None].
    - A Go [int] is a [Z] kept in the 64-bit range by [int_wrap] (the
      size of [int] on a 64-bit platform).
    - [float64], [error], and the packages strconv, regexp and
      encoding/xml are interfaces (type classes): the client only moves
      their values around.
    - A [chan<- T] is the list of the values sent so far; a send appends.
    - A call that may panic returns an [outcome]: [Returns v] or [Panics];
      a function that sends to a channel and may panic returns the channel
      as it leaves it together with its outcome.
    - [log.Printf] writes to the process log, which no value returned by
      the client depends on; the debug flag is kept, the log is not. *)

From Stdlib Require Import ZArith List String Ascii Bool Lia Permutation Floats Uint63.
From stdpp Require Import gmap strings.
Import ListNotations.

Local Open Scope Z_scope.
Local Open Scope string_scope.
Local Open Scope list_scope.

(** ** Go values *)

Definition max_int : Z := 2 ^ 63 - 1.

(** Two's-complement wrap-around of a Go [int]. *)
Definition int_wrap (z : Z) : Z := (z + 2 ^ 63) mod 2 ^ 64 - 2 ^ 63.

(** [n++] on a Go [int]. *)
Definition int_incr (n : Z) : Z := int_wrap (n + 1).

(** A call returns a value or panics. *)
Inductive outcome (A : Type) : Type :=
| Returns (a : A)
| Panics.

Arguments Returns {A} a.
Arguments Panics {A}.

(** The builtin types the client handles without looking inside. *)
Class GoTypes := {
  error : Type;
  float64 : Type;
  (** the zero value of a [float64] field *)
  float64_zero : float64;
  (** the conversion [float64(n)] of an [int] *)
  float64_of_int : Z -> float64;
}.

(** Package strconv: [ParseFloat s 64] returns the pair [(f, err)]. *)
Class Strconv {G : GoTypes} := {
  ParseFloat : string -> float64 * option error;
}.

(** Package regexp.  [MustCompile] panics on a pattern that does not
    compile. *)
Class RegexpPkg := {
  Regexp : Type;
  MustCompile : string -> outcome Regexp;
  MatchString : Regexp -> string -> bool;
}.

(** Package unicode/utf8. *)
Class Utf8 := {
  ValidString : string -> bool;
}.

(** Package encoding/xml: [Unmarshal b obj] decodes [b] into the object
    [obj] points to and returns the object as it leaves it together with
    the error. *)
Class XmlUnmarshal {G : GoTypes} (A : Type) := {
  Unmarshal : list Byte.byte -> A -> A * option error;
}.

(** Modelled from the spec: the XML envelope declarations of package rpc
    are not in the source.  [num] is the type of a numeric envelope field,
    with its zero value, the conversion [float64(v)] and the test [v > 0]
    the client applies to it. *)
Class XmlNum {G : GoTypes} := {
  num : Type;
  num_zero : num;
  float64_of_num : num -> float64;
  num_positive : num -> bool;
}.

(** Go's [range] over a [map[string]float64] visits every entry once, in
    an order the language leaves open. *)
Class MapRange {G : GoTypes} := {
  map_range : gmap string float64 -> list (string * float64);
  map_range_perm : forall m, map_range m ≡ₚ map_to_list m;
}.

(** ** Package prometheus (client_golang), as far as the collector uses it *)

Module prometheus.

Record Desc := {
  fqName : string;
  help : string;
  variableLabels : list string;
}.

(** [NewDesc fqName help variableLabels nil] *)
Definition NewDesc (fqName help : string) (variableLabels : list string) : Desc :=
  {| fqName := fqName; help := help; variableLabels := variableLabels |}.

Inductive ValueType := CounterValue | GaugeValue | UntypedValue.

Record Metric {G : GoTypes} := {
  desc : Desc;
  valueType : ValueType;
  value : float64;
  labelValues : list string;
}.

(** [MustNewConstMetric desc valueType value labelValues...] returns the
    sample made of its arguments and panics where [NewConstMetric]
    returns an error: when the number of label values is not the number
    of label names of the descriptor, or when a label value is not valid
    UTF-8.  (It panics too on a descriptor that [NewDesc] made from a bad
    name or bad label names; the descriptors of the collector are well
    formed.) *)
Definition MustNewConstMetric {G : GoTypes} {U : Utf8} (d : Desc) (t : ValueType)
    (v : float64) (l : list string) : outcome Metric :=
  if (length l =? length (variableLabels d))%nat && forallb ValidString l
  then Returns {| desc := d; valueType := t; value := v; labelValues := l |}
  else Panics.

End prometheus.

(** ** Package interfaces *)

Module interfaces.
Import prometheus.

Definition prefix : string := "junos_interface_".

(** Modelled from the spec: the declaration of [InterfaceStats] is not
    in the source; its fields and their types are those the collector
    reads and the client writes (a record of one physical or logical
    interface). *)
Record InterfaceStats {G : GoTypes} := {
  Name : string;
  AdminStatus : bool;
  OperStatus : bool;
  ErrorStatus : bool;
  Description : string;
  Mac : string;
  IsPhysical : bool;
  ReceiveBytes : float64;
  ReceiveErrors : float64;
  ReceiveDrops : float64;
  TransmitBytes : float64;
  TransmitErrors : float64;
  TransmitDrops : float64;
}.

(** Modelled from the spec: the interface [InterfaceStatsDatasource] is
    declared outside the source; it is anything with the method
    [InterfaceStats() ([]*InterfaceStats, error)]. *)
Class InterfaceStatsDatasource {G : GoTypes} (D : Type) := {
  datasource_InterfaceStats : D -> list InterfaceStats * option error;
}.

(** The label names set by [init]. *)
Definition l : list string := ["target"; "name"; "description"; "mac"].

Definition receiveBytesDesc : Desc :=
  NewDesc (prefix +:+ "receive_bytes") "Received data in bytes" l.
Definition receiveErrorsDesc : Desc :=
  NewDesc (prefix +:+ "receive_errors") "Number of errors caused by incoming packets" l.
Definition receiveDropsDesc : Desc :=
  NewDesc (prefix +:+ "receive_drops") "Number of dropped incoming packets" l.
Definition transmitBytesDesc : Desc :=
  NewDesc (prefix +:+ "transmit_bytes") "Transmitted data in bytes" l.
Definition transmitErrorsDesc : Desc :=
  NewDesc (prefix +:+ "transmit_errors") "Number of errors caused by outgoing packets" l.
Definition transmitDropsDesc : Desc :=
  NewDesc (prefix +:+ "transmit_drops") "Number of dropped outgoing packets" l.
Definition adminStatusDesc : Desc :=
  NewDesc (prefix +:+ "admin_up") "Admin operational status" l.
Definition operStatusDesc : Desc :=
  NewDesc (prefix +:+ "up") "Interface operational status" l.
Definition errorStatusDesc : Desc :=
  NewDesc (prefix +:+ "error_status") "Admin and operational status differ" l.

Definition Describe (ch : list Desc) : list Desc :=
  ch ++ [receiveBytesDesc; receiveErrorsDesc; receiveDropsDesc;
         transmitBytesDesc; transmitDropsDesc; transmitErrorsDesc;
         adminStatusDesc; operStatusDesc; errorStatusDesc].

Section Collector.
Context {G : GoTypes} {U : Utf8}.

(** [adminUp := 0; if b { adminUp = 1 }] *)
Definition flag (b : bool) : Z := if b then 1 else 0.

(** [ch <- m], followed by [next]: the sample is sent when the call that
    makes it returns; when that call panics nothing more is done. *)
Definition send (ch : list Metric) (m : outcome Metric)
    (next : list Metric -> list Metric * outcome unit) : list Metric * outcome unit :=
  match m with
  | Returns m => next (ch ++ [m])
  | Panics => (ch, Panics)
  end.

Definition collectForInterface (s : InterfaceStats) (ch : list Metric)
    (labelValues : list string) : list Metric * outcome unit :=
  let l := labelValues ++ [Name s; Description s; Mac s] in
  send ch (MustNewConstMetric receiveBytesDesc GaugeValue (ReceiveBytes s) l) (fun ch =>
  send ch (MustNewConstMetric transmitBytesDesc GaugeValue (TransmitBytes s) l) (fun ch =>
  if IsPhysical s then
    let adminUp := flag (AdminStatus s) in
    let operUp := flag (OperStatus s) in
    let err := flag (ErrorStatus s) in
    send ch (MustNewConstMetric adminStatusDesc GaugeValue (float64_of_int adminUp) l) (fun ch =>
    send ch (MustNewConstMetric operStatusDesc GaugeValue (float64_of_int operUp) l) (fun ch =>
    send ch (MustNewConstMetric errorStatusDesc GaugeValue (float64_of_int err) l) (fun ch =>
    send ch (MustNewConstMetric transmitErrorsDesc GaugeValue (TransmitErrors s) l) (fun ch =>
    send ch (MustNewConstMetric transmitDropsDesc GaugeValue (TransmitDrops s) l) (fun ch =>
    send ch (MustNewConstMetric receiveErrorsDesc GaugeValue (ReceiveErrors s) l) (fun ch =>
    send ch (MustNewConstMetric receiveDropsDesc GaugeValue (ReceiveDrops s) l) (fun ch =>
    (ch, Returns tt))))))))
  else (ch, Returns tt))).

(** The loop of [Collect] over [stats]; a panic of [collectForInterface]
    ends it. *)
Fixpoint Collect_stats (stats : list InterfaceStats) (ch : list Metric)
    (labelValues : list string) : list Metric * outcome unit :=
  match stats with
  | [] => (ch, Returns tt)
  | s :: stats =>
      match collectForInterface s ch labelValues with
      | (ch, Returns _) => Collect_stats stats ch labelValues
      | (ch, Panics) => (ch, Panics)
      end
  end.

(** [Collect] leaves the channel and returns its error, or panics. *)
Definition Collect {D} {DS : InterfaceStatsDatasource D} (datasource : D)
    (ch : list Metric) (labelValues : list string)
    : list Metric * outcome (option error) :=
  let '(stats, err) := datasource_InterfaceStats datasource in
  match err with
  | Some e => (ch, Returns (Some e))
  | None =>
      match Collect_stats stats ch labelValues with
      | (ch, Returns _) => (ch, Returns None)
      | (ch, Panics) => (ch, Panics)
      end
  end.

End Collector.

End interfaces.

(** ** The record packages the client fills

    The declarations of the domain records are not in the source; each
    record below has the fields the client assigns, with the types of
    the values assigned. *)

Module alarm.
(** Modelled from the spec: the declaration of [AlarmCounter] is not in the source;
    the aggregate count of the alarms, red (major) and yellow (minor). *)
Record AlarmCounter {G : GoTypes} := {
  RedCount : float64;
  YellowCount : float64;
}.
End alarm.

Module bgp.
(** Modelled from the spec: the declaration of [BgpSession] is not in the source;
    the summary state of one BGP peer. *)
Record BgpSession {G : GoTypes} := {
  Ip : string;
  Up : bool;
  Asn : string;
  Flaps : float64;
  InputMessages : float64;
  OutputMessages : float64;
  AcceptedPrefixes : float64;
  ActivePrefixes : float64;
  ReceivedPrefixes : float64;
  RejectedPrefixes : float64;
}.
End bgp.

Module ospf.
(** Modelled from the spec: the declaration of [OspfArea] is not in the source;
    the neighbor summary of one OSPF area. *)
Record OspfArea {G : GoTypes} := {
  Name : string;
  Neighbors : float64;
}.
End ospf.

Module isis.
(** Modelled from the spec: the declaration of [IsisAdjacencies] is not in the source;
    the aggregate of the ISIS adjacencies, up and total. *)
Record IsisAdjacencies {G : GoTypes} := {
  Up : float64;
  Total : float64;
}.
End isis.

Module route.
Module ProtocolRouteCount.
(** Modelled from the spec: the declaration of [ProtocolRouteCount] is not in the source;
    the route counts of one protocol within a table. *)
Record t {G : GoTypes} := {
  Name : string;
  Routes : float64;
  ActiveRoutes : float64;
}.
End ProtocolRouteCount.
(** Modelled from the spec: the declaration of [RoutingTable] is not in the source;
    the route counts of one routing table, with the ordered list
    of its per-protocol counts. *)
Record RoutingTable {G : GoTypes} := {
  Name : string;
  MaxRoutes : float64;
  ActiveRoutes : float64;
  TotalRoutes : float64;
  Protocols : list ProtocolRouteCount.t;
}.
End route.

Module routing_engine.
(** Modelled from the spec: the declaration of [RouteEngineStats] is not in the source;
    the health snapshot of the routing engine. *)
Record RouteEngineStats {G : GoTypes} := {
  Temperature : float64;
  MemoryUtilization : float64;
  CPUTemperature : float64;
  CPUUser : float64;
  CPUBackground : float64;
  CPUSystem : float64;
  CPUInterrupt : float64;
  CPUIdle : float64;
  LoadAverageOne : float64;
  LoadAverageFive : float64;
  LoadAverageFifteen : float64;
}.
End routing_engine.

Module environment.
(** Modelled from the spec: the declaration of [EnvironmentItem] is not in the source;
    one temperature sensor, by name. *)
Record EnvironmentItem {G : GoTypes} := {
  Name : string;
  Temperature : float64;
}.
End environment.

Module interface_diagnostics.
(** Modelled from the spec: the declaration of [InterfaceDiagnostics] is not in the source;
    the optical transceiver health of one interface. *)
Record InterfaceDiagnostics {G : GoTypes} := {
  Name : string;
  LaserBiasCurrent : float64;
  LaserOutputPower : float64;
  LaserOutputPowerDbm : float64;
  ModuleTemperature : float64;
  ModuleVoltage : float64;
  RxSignalAvgOpticalPower : float64;
  RxSignalAvgOpticalPowerDbm : float64;
  LaserRxOpticalPower : float64;
  LaserRxOpticalPowerDbm : float64;
}.

(** The assignments [d.Field = v] of the client. *)
Definition set_LaserOutputPowerDbm {G : GoTypes} (v : float64) (d : InterfaceDiagnostics) :=
  {| Name := Name d; LaserBiasCurrent := LaserBiasCurrent d;
     LaserOutputPower := LaserOutputPower d; LaserOutputPowerDbm := v;
     ModuleTemperature := ModuleTemperature d; ModuleVoltage := ModuleVoltage d;
     RxSignalAvgOpticalPower := RxSignalAvgOpticalPower d;
     RxSignalAvgOpticalPowerDbm := RxSignalAvgOpticalPowerDbm d;
     LaserRxOpticalPower := LaserRxOpticalPower d;
     LaserRxOpticalPowerDbm := LaserRxOpticalPowerDbm d |}.
Definition set_ModuleVoltage {G : GoTypes} (v : float64) (d : InterfaceDiagnostics) :=
  {| Name := Name d; LaserBiasCurrent := LaserBiasCurrent d;
     LaserOutputPower := LaserOutputPower d; LaserOutputPowerDbm := LaserOutputPowerDbm d;
     ModuleTemperature := ModuleTemperature d; ModuleVoltage := v;
     RxSignalAvgOpticalPower := RxSignalAvgOpticalPower d;
     RxSignalAvgOpticalPowerDbm := RxSignalAvgOpticalPowerDbm d;
     LaserRxOpticalPower := LaserRxOpticalPower d;
     LaserRxOpticalPowerDbm := LaserRxOpticalPowerDbm d |}.
Definition set_RxSignalAvgOpticalPower {G : GoTypes} (v : float64) (d : InterfaceDiagnostics) :=
  {| Name := Name d; LaserBiasCurrent := LaserBiasCurrent d;
     LaserOutputPower := LaserOutputPower d; LaserOutputPowerDbm := LaserOutputPowerDbm d;
     ModuleTemperature := ModuleTemperature d; ModuleVoltage := ModuleVoltage d;
     RxSignalAvgOpticalPower := v;
     RxSignalAvgOpticalPowerDbm := RxSignalAvgOpticalPowerDbm d;
     LaserRxOpticalPower := LaserRxOpticalPower d;
     LaserRxOpticalPowerDbm := LaserRxOpticalPowerDbm d |}.
Definition set_RxSignalAvgOpticalPowerDbm {G : GoTypes} (v : float64) (d : InterfaceDiagnostics) :=
  {| Name := Name d; LaserBiasCurrent := LaserBiasCurrent d;
     LaserOutputPower := LaserOutputPower d; LaserOutputPowerDbm := LaserOutputPowerDbm d;
     ModuleTemperature := ModuleTemperature d; ModuleVoltage := ModuleVoltage d;
     RxSignalAvgOpticalPower := RxSignalAvgOpticalPower d;
     RxSignalAvgOpticalPowerDbm := v;
     LaserRxOpticalPower := LaserRxOpticalPower d;
     LaserRxOpticalPowerDbm := LaserRxOpticalPowerDbm d |}.
Definition set_LaserRxOpticalPower {G : GoTypes} (v : float64) (d : InterfaceDiagnostics) :=
  {| Name := Name d; LaserBiasCurrent := LaserBiasCurrent d;
     LaserOutputPower := LaserOutputPower d; LaserOutputPowerDbm := LaserOutputPowerDbm d;
     ModuleTemperature := ModuleTemperature d; ModuleVoltage := ModuleVoltage d;
     RxSignalAvgOpticalPower := RxSignalAvgOpticalPower d;
     RxSignalAvgOpticalPowerDbm := RxSignalAvgOpticalPowerDbm d;
     LaserRxOpticalPower := v;
     LaserRxOpticalPowerDbm := LaserRxOpticalPowerDbm d |}.
Definition set_LaserRxOpticalPowerDbm {G : GoTypes} (v : float64) (d : InterfaceDiagnostics) :=
  {| Name := Name d; LaserBiasCurrent := LaserBiasCurrent d;
     LaserOutputPower := LaserOutputPower d; LaserOutputPowerDbm := LaserOutputPowerDbm d;
     ModuleTemperature := ModuleTemperature d; ModuleVoltage := ModuleVoltage d;
     RxSignalAvgOpticalPower := RxSignalAvgOpticalPower d;
     RxSignalAvgOpticalPowerDbm := RxSignalAvgOpticalPowerDbm d;
     LaserRxOpticalPower := LaserRxOpticalPower d;
     LaserRxOpticalPowerDbm := v |}.
End interface_diagnostics.

(** ** Package connector *)

Module connector.
(** Modelled from the spec: the command channel [SshConnection] is
    declared outside the source.  Given a command text, [RunCommand]
    returns raw response bytes and an error.  Every operation of the
    client sends each of its commands once, so a connection is the reply
    of the device to each command. *)
Record SshConnection {G : GoTypes} := {
  Host : string;
  RunCommand : string -> list Byte.byte * option error;
}.
End connector.

(** ** Package rpc *)

Module rpc.

(** *** The XML envelopes

    The envelope declarations are not in the source.  Each envelope below
    has the fields the client reads, under the name of its path from the
    variable that holds it ([a.Information.Details] is
    [alarm_Information_Details a], [phy.InputErrors.Drops] is
    [phy_InputErrors_Drops phy]); every numeric field has the type [num],
    and [T_zero] is the value of the composite literal [T{}]. *)

Section Envelopes.
Context {G : GoTypes} {N : XmlNum}.

(** Modelled from the spec: one alarm detail of [AlarmRpc]. *)
Record AlarmDetails := {
  alarm_Class : string;
  alarm_Description : string;
  alarm_Type : string;
}.

(** Modelled from the spec: the envelope of the two alarm commands. *)
Record AlarmRpc := {
  alarm_Information_Details : list AlarmDetails;
}.

(** Modelled from the spec: a logical interface nested in a physical entry. *)
Record LogInterface := {
  log_Name : string;
  log_Description : string;
  log_Stats_InputBytes : num;
  log_Stats_OutputBytes : num;
}.

(** Modelled from the spec: a physical entry of [InterfaceRpc]. *)
Record PhyInterface := {
  phy_Name : string;
  phy_AdminStatus : string;
  phy_OperStatus : string;
  phy_Description : string;
  phy_MacAddress : string;
  phy_Stats_InputBytes : num;
  phy_Stats_OutputBytes : num;
  phy_InputErrors_Drops : num;
  phy_InputErrors_Errors : num;
  phy_OutputErrors_Drops : num;
  phy_OutputErrors_Errors : num;
  phy_LogicalInterfaces : list LogInterface;
}.

(** Modelled from the spec: the envelope of the interface statistics. *)
Record InterfaceRpc := {
  interface_Information_Interfaces : list PhyInterface;
}.

(** Modelled from the spec: a peer of [BgpRpc]. *)
Record BgpPeer := {
  peer_Ip : string;
  peer_State : string;
  peer_Asn : string;
  peer_Flaps : num;
  peer_InputMessages : num;
  peer_OutputMessages : num;
  peer_Rib_AcceptedPrefixes : num;
  peer_Rib_ActivePrefixes : num;
  peer_Rib_ReceivedPrefixes : num;
  peer_Rib_RejectedPrefixes : num;
}.

(** Modelled from the spec: the envelope of the BGP summary. *)
Record BgpRpc := {
  bgp_Information_Peers : list BgpPeer;
}.

(** Modelled from the spec: an area of [Ospf3Rpc]. *)
Record Ospf3Area := {
  area_Name : string;
  area_Neighbors_NeighborsUp : num;
}.

(** Modelled from the spec: the envelope of the OSPF3 overview. *)
Record Ospf3Rpc := {
  ospf3_Information_Overview_Areas : list Ospf3Area;
}.

(** Modelled from the spec: an adjacency of [IsisRpc]. *)
Record IsisAdjacency := {
  adjacency_AdjacencyState : string;
}.

(** Modelled from the spec: the envelope of the ISIS adjacencies. *)
Record IsisRpc := {
  isis_Information_Adjacencies : list IsisAdjacency;
}.

(** Modelled from the spec: a protocol entry of a table. *)
Record RouteProtocol := {
  proto_Name : string;
  proto_Routes : num;
  proto_ActiveRoutes : num;
}.

(** Modelled from the spec: a table of [RouteRpc]. *)
Record RouteTable := {
  table_Name : string;
  table_MaxRoutes : num;
  table_ActiveRoutes : num;
  table_TotalRoutes : num;
  table_Protocols : list RouteProtocol;
}.

(** Modelled from the spec: the envelope of the route summary. *)
Record RouteRpc := {
  route_Information_Tables : list RouteTable;
}.

(** Modelled from the spec: the envelope of the routing engine, whose fields are
    all under [x.Information.RouteEngine]. *)
Record RoutingEngineRpc := {
  re_Temperature_Value : num;
  re_MemoryUtilization : num;
  re_CPUTemperature_Value : num;
  re_CPUUser : num;
  re_CPUBackground : num;
  re_CPUSystem : num;
  re_CPUInterrupt : num;
  re_CPUIdle : num;
  re_LoadAverageOne : num;
  re_LoadAAverageFive : num;
  re_LoadAverageFifteen : num;
}.

(** Modelled from the spec: an item of [EnvironmentRpc].  [Temperature]
    is a pointer: [None] is [nil], [Some v] points to a struct whose
    [Value] is [v]. *)
Record EnvironmentEntry := {
  item_Name : string;
  item_Temperature : option num;
}.

(** Modelled from the spec: the envelope of the chassis environment. *)
Record EnvironmentRpc := {
  environment_Information_Items : list EnvironmentEntry;
}.

(** Modelled from the spec: an entry of [InterfaceDiagnosticsRpc]. *)
Record PhyDiagInterface := {
  diag_Name : string;
  diag_Diagnostics_NA : string;
  diag_Diagnostics_LaserBiasCurrent : num;
  diag_Diagnostics_LaserOutputPower : num;
  diag_Diagnostics_LaserOutputPowerDbm : string;
  diag_Diagnostics_ModuleTemperature_Value : num;
  diag_Diagnostics_ModuleVoltage : num;
  diag_Diagnostics_RxSignalAvgOpticalPower : num;
  diag_Diagnostics_RxSignalAvgOpticalPowerDbm : string;
  diag_Diagnostics_LaserRxOpticalPower : num;
  diag_Diagnostics_LaserRxOpticalPowerDbm : string;
}.

(** Modelled from the spec: the envelope of the optical diagnostics. *)
Record InterfaceDiagnosticsRpc := {
  diagnostics_Information_Diagnostics : list PhyDiagInterface;
}.

Definition AlarmRpc_zero : AlarmRpc := {| alarm_Information_Details := [] |}.
Definition InterfaceRpc_zero : InterfaceRpc := {| interface_Information_Interfaces := [] |}.
Definition BgpRpc_zero : BgpRpc := {| bgp_Information_Peers := [] |}.
Definition Ospf3Rpc_zero : Ospf3Rpc := {| ospf3_Information_Overview_Areas := [] |}.
Definition IsisRpc_zero : IsisRpc := {| isis_Information_Adjacencies := [] |}.
Definition RouteRpc_zero : RouteRpc := {| route_Information_Tables := [] |}.
Definition RoutingEngineRpc_zero : RoutingEngineRpc :=
  {| re_Temperature_Value := num_zero; re_MemoryUtilization := num_zero;
     re_CPUTemperature_Value := num_zero; re_CPUUser := num_zero;
     re_CPUBackground := num_zero; re_CPUSystem := num_zero;
     re_CPUInterrupt := num_zero; re_CPUIdle := num_zero;
     re_LoadAverageOne := num_zero; re_LoadAAverageFive := num_zero;
     re_LoadAverageFifteen := num_zero |}.
Definition EnvironmentRpc_zero : EnvironmentRpc := {| environment_Information_Items := [] |}.
Definition InterfaceDiagnosticsRpc_zero : InterfaceDiagnosticsRpc :=
  {| diagnostics_Information_Diagnostics := [] |}.

End Envelopes.

(** *** The client *)

Section Client.
Context {G : GoTypes} {N : XmlNum} {SC : Strconv} {RE : RegexpPkg} {MR : MapRange}.
Context {XAlarm : XmlUnmarshal AlarmRpc} {XInterface : XmlUnmarshal InterfaceRpc}
        {XBgp : XmlUnmarshal BgpRpc} {XOspf3 : XmlUnmarshal Ospf3Rpc}
        {XIsis : XmlUnmarshal IsisRpc} {XRoute : XmlUnmarshal RouteRpc}
        {XRoutingEngine : XmlUnmarshal RoutingEngineRpc}
        {XEnvironment : XmlUnmarshal EnvironmentRpc}
        {XDiagnostics : XmlUnmarshal InterfaceDiagnosticsRpc}.

Record RpcClient := {
  conn : connector.SshConnection;
  debug : bool;
  alarmFilter : option Regexp;
}.

(** The assignment [rpc.alarmFilter = re]. *)
Definition set_alarmFilter (re : Regexp) (rpc : RpcClient) : RpcClient :=
  {| conn := conn rpc; debug := debug rpc; alarmFilter := Some re |}.

(** [NewClient] returns the client, or panics with [MustCompile]. *)
Definition NewClient (ssh : connector.SshConnection) (debug : bool)
    (alarmFilter : string) : outcome RpcClient :=
  let rpc := {| conn := ssh; debug := debug; alarmFilter := None |} in
  if (Z.of_nat (String.length alarmFilter) >? 0)%Z then
    match MustCompile alarmFilter with
    | Returns re => Returns (set_alarmFilter re rpc)
    | Panics => Panics
    end
  else Returns rpc.

(** [obj] is the value the pointer argument points to on entry; the first
    component of the result is that value on return. *)
Definition runCommandAndParse {A : Type} {X : XmlUnmarshal A}
    (c : RpcClient) (cmd : string) (obj : A) : A * option error :=
  let '(b, err) := connector.RunCommand (conn c) (cmd +:+ " | display xml") in
  match err with
  | Some e => (obj, Some e)
  | None => Unmarshal b obj
  end.

Definition shouldFilterAlarm (c : RpcClient) (alarm : AlarmDetails) : bool :=
  match alarmFilter c with
  | None => false
  | Some re =>
      MatchString re (alarm_Description alarm) || MatchString re (alarm_Type alarm)
  end.

(** The body of the loop over [a.Information.Details], on the pair
    [(red, yellow)]. *)
Definition AlarmCounter_detail (c : RpcClient) (ry : Z * Z) (d : AlarmDetails) : Z * Z :=
  let '(red, yellow) := ry in
  if shouldFilterAlarm c d then (red, yellow)
  else if String.eqb (alarm_Class d) "Major" then (int_incr red, yellow)
  else if String.eqb (alarm_Class d) "Minor" then (red, int_incr yellow)
  else (red, yellow).

(** The loop over [cmds], with the [return] that follows it. *)
Fixpoint AlarmCounter_cmds (c : RpcClient) (cmds : list string) (red yellow : Z)
    : option alarm.AlarmCounter * option error :=
  match cmds with
  | [] =>
      (Some {| alarm.RedCount := float64_of_int red;
               alarm.YellowCount := float64_of_int yellow |}, None)
  | cmd :: cmds =>
      let '(a, err) := runCommandAndParse c cmd AlarmRpc_zero in
      match err with
      | Some e => (None, Some e)
      | None =>
          let '(red, yellow) :=
            fold_left (AlarmCounter_detail c) (alarm_Information_Details a) (red, yellow) in
          AlarmCounter_cmds c cmds red yellow
      end
  end.

Definition AlarmCounter (c : RpcClient) : option alarm.AlarmCounter * option error :=
  let red := 0%Z in
  let yellow := 0%Z in
  let cmds := ["show system alarms"; "show chassis alarms"] in
  AlarmCounter_cmds c cmds red yellow.

(** The record [s] of a physical entry. *)
Definition InterfaceStats_phy (phy : PhyInterface) : interfaces.InterfaceStats :=
  {| interfaces.IsPhysical := true;
     interfaces.Name := phy_Name phy;
     interfaces.AdminStatus := String.eqb (phy_AdminStatus phy) "up";
     interfaces.OperStatus := String.eqb (phy_OperStatus phy) "up";
     interfaces.ErrorStatus := negb (String.eqb (phy_AdminStatus phy) (phy_OperStatus phy));
     interfaces.Description := phy_Description phy;
     interfaces.Mac := phy_MacAddress phy;
     interfaces.ReceiveDrops := float64_of_num (phy_InputErrors_Drops phy);
     interfaces.ReceiveErrors := float64_of_num (phy_InputErrors_Errors phy);
     interfaces.ReceiveBytes := float64_of_num (phy_Stats_InputBytes phy);
     interfaces.TransmitDrops := float64_of_num (phy_OutputErrors_Drops phy);
     interfaces.TransmitErrors := float64_of_num (phy_OutputErrors_Errors phy);
     interfaces.TransmitBytes := float64_of_num (phy_Stats_OutputBytes phy) |}.

(** The record [sl] of a logical entry under [phy]; the fields the
    literal leaves out have their zero values. *)
Definition InterfaceStats_log (phy : PhyInterface) (log : LogInterface)
    : interfaces.InterfaceStats :=
  {| interfaces.IsPhysical := false;
     interfaces.Name := log_Name log;
     interfaces.Description := log_Description log;
     interfaces.Mac := phy_MacAddress phy;
     interfaces.ReceiveBytes := float64_of_num (log_Stats_InputBytes log);
     interfaces.TransmitBytes := float64_of_num (log_Stats_OutputBytes log);
     interfaces.AdminStatus := false;
     interfaces.OperStatus := false;
     interfaces.ErrorStatus := false;
     interfaces.ReceiveDrops := float64_zero;
     interfaces.ReceiveErrors := float64_zero;
     interfaces.TransmitDrops := float64_zero;
     interfaces.TransmitErrors := float64_zero |}.

Definition InterfaceStats (c : RpcClient)
    : list interfaces.InterfaceStats * option error :=
  let '(x, err) := runCommandAndParse c "show interfaces statistics detail" InterfaceRpc_zero in
  match err with
  | Some e => ([], Some e)
  | None =>
      let stats :=
        fold_left
          (fun stats phy =>
             let s := InterfaceStats_phy phy in
             let stats := stats ++ [s] in
             fold_left
               (fun stats log =>
                  let sl := InterfaceStats_log phy log in
                  stats ++ [sl])
               (phy_LogicalInterfaces phy) stats)
          (interface_Information_Interfaces x) [] in
      (stats, None)
  end.

Definition BgpSessions (c : RpcClient) : list bgp.BgpSession * option error :=
  let '(x, err) := runCommandAndParse c "show bgp summary" BgpRpc_zero in
  match err with
  | Some e => ([], Some e)
  | None =>
      let sessions :=
        fold_left
          (fun sessions peer =>
             let s :=
               {| bgp.Ip := peer_Ip peer;
                  bgp.Up := String.eqb (peer_State peer) "Established";
                  bgp.Asn := peer_Asn peer;
                  bgp.Flaps := float64_of_num (peer_Flaps peer);
                  bgp.InputMessages := float64_of_num (peer_InputMessages peer);
                  bgp.OutputMessages := float64_of_num (peer_OutputMessages peer);
                  bgp.AcceptedPrefixes := float64_of_num (peer_Rib_AcceptedPrefixes peer);
                  bgp.ActivePrefixes := float64_of_num (peer_Rib_ActivePrefixes peer);
                  bgp.ReceivedPrefixes := float64_of_num (peer_Rib_ReceivedPrefixes peer);
                  bgp.RejectedPrefixes := float64_of_num (peer_Rib_RejectedPrefixes peer) |} in
             sessions ++ [s])
          (bgp_Information_Peers x) [] in
      (sessions, None)
  end.

Definition OspfAreas (c : RpcClient) : list ospf.OspfArea * option error :=
  let '(x, err) := runCommandAndParse c "show ospf3 overview" Ospf3Rpc_zero in
  match err with
  | Some e => ([], Some e)
  | None =>
      let areas :=
        fold_left
          (fun areas area =>
             let a :=
               {| ospf.Name := area_Name area;
                  ospf.Neighbors := float64_of_num (area_Neighbors_NeighborsUp area) |} in
             areas ++ [a])
          (ospf3_Information_Overview_Areas x) [] in
      (areas, None)
  end.

(** The body of the loop over [x.Information.Adjacencies], on the pair
    [(up, total)]. *)
Definition IsisAdjancies_adjacency (ut : Z * Z) (adjacency : IsisAdjacency) : Z * Z :=
  let '(up, total) := ut in
  let up := if String.eqb (adjacency_AdjacencyState adjacency) "Up" then int_incr up else up in
  (up, int_incr total).

Definition IsisAdjancies (c : RpcClient) : option isis.IsisAdjacencies * option error :=
  let up := 0%Z in
  let total := 0%Z in
  let '(x, err) := runCommandAndParse c "show isis adjacency" IsisRpc_zero in
  match err with
  | Some e => (None, Some e)
  | None =>
      let '(up, total) :=
        fold_left IsisAdjancies_adjacency (isis_Information_Adjacencies x) (up, total) in
      (Some {| isis.Up := float64_of_int up; isis.Total := float64_of_int total |}, None)
  end.

(** The assignment [t.Protocols = append(t.Protocols, p)]. *)
Definition append_Protocols (p : route.ProtocolRouteCount.t) (t : route.RoutingTable)
    : route.RoutingTable :=
  {| route.Name := route.Name t;
     route.MaxRoutes := route.MaxRoutes t;
     route.ActiveRoutes := route.ActiveRoutes t;
     route.TotalRoutes := route.TotalRoutes t;
     route.Protocols := route.Protocols t ++ [p] |}.

Definition RoutingTables (c : RpcClient) : list route.RoutingTable * option error :=
  let '(x, err) := runCommandAndParse c "show route summary" RouteRpc_zero in
  match err with
  | Some e => ([], Some e)
  | None =>
      let tables :=
        fold_left
          (fun tables table =>
             let t :=
               {| route.Name := table_Name table;
                  route.MaxRoutes := float64_of_num (table_MaxRoutes table);
                  route.ActiveRoutes := float64_of_num (table_ActiveRoutes table);
                  route.TotalRoutes := float64_of_num (table_TotalRoutes table);
                  route.Protocols := [] |} in
             let t :=
               fold_left
                 (fun t proto =>
                    let p :=
                      {| route.ProtocolRouteCount.Name := proto_Name proto;
                         route.ProtocolRouteCount.Routes := float64_of_num (proto_Routes proto);
                         route.ProtocolRouteCount.ActiveRoutes :=
                           float64_of_num (proto_ActiveRoutes proto) |} in
                    append_Protocols p t)
                 (table_Protocols table) t in
             tables ++ [t])
          (route_Information_Tables x) [] in
      (tables, None)
  end.

Definition RouteEngineStats (c : RpcClient)
    : option routing_engine.RouteEngineStats * option error :=
  let '(x, err) := runCommandAndParse c "show chassis routing-engine" RoutingEngineRpc_zero in
  match err with
  | Some e => (None, Some e)
  | None =>
      let r :=
        {| routing_engine.Temperature := float64_of_num (re_Temperature_Value x);
           routing_engine.MemoryUtilization := float64_of_num (re_MemoryUtilization x);
           routing_engine.CPUTemperature := float64_of_num (re_CPUTemperature_Value x);
           routing_engine.CPUUser := float64_of_num (re_CPUUser x);
           routing_engine.CPUBackground := float64_of_num (re_CPUBackground x);
           routing_engine.CPUSystem := float64_of_num (re_CPUSystem x);
           routing_engine.CPUInterrupt := float64_of_num (re_CPUInterrupt x);
           routing_engine.CPUIdle := float64_of_num (re_CPUIdle x);
           routing_engine.LoadAverageOne := float64_of_num (re_LoadAverageOne x);
           routing_engine.LoadAverageFive := float64_of_num (re_LoadAAverageFive x);
           routing_engine.LoadAverageFifteen := float64_of_num (re_LoadAverageFifteen x) |} in
      (Some r, None)
  end.

(** The first loop of [EnvironmentItems]: the map [list]. *)
Definition EnvironmentItems_list (items : list EnvironmentEntry) : gmap string float64 :=
  fold_left
    (fun (list : gmap string float64) item =>
       match item_Temperature item with
       | Some value => <[item_Name item := float64_of_num value]> list
       | None => list
       end)
    items ∅.

Definition EnvironmentItems (c : RpcClient)
    : list environment.EnvironmentItem * option error :=
  let '(x, err) := runCommandAndParse c "show chassis environment" EnvironmentRpc_zero in
  match err with
  | Some e => ([], Some e)
  | None =>
      let list := EnvironmentItems_list (environment_Information_Items x) in
      let items :=
        fold_left
          (fun items '(name, value) =>
             let i := {| environment.Name := name; environment.Temperature := value |} in
             items ++ [i])
          (map_range list) [] in
      (items, None)
  end.

(** The record [d] of one entry that is not skipped. *)
Definition InterfaceDiagnostics_entry (diag : PhyDiagInterface)
    : interface_diagnostics.InterfaceDiagnostics :=
  let d :=
    {| interface_diagnostics.Name := diag_Name diag;
       interface_diagnostics.LaserBiasCurrent :=
         float64_of_num (diag_Diagnostics_LaserBiasCurrent diag);
       interface_diagnostics.LaserOutputPower :=
         float64_of_num (diag_Diagnostics_LaserOutputPower diag);
       interface_diagnostics.ModuleTemperature :=
         float64_of_num (diag_Diagnostics_ModuleTemperature_Value diag);
       interface_diagnostics.LaserOutputPowerDbm := float64_zero;
       interface_diagnostics.ModuleVoltage := float64_zero;
       interface_diagnostics.RxSignalAvgOpticalPower := float64_zero;
       interface_diagnostics.RxSignalAvgOpticalPowerDbm := float64_zero;
       interface_diagnostics.LaserRxOpticalPower := float64_zero;
       interface_diagnostics.LaserRxOpticalPowerDbm := float64_zero |} in
  let '(f, err) := ParseFloat (diag_Diagnostics_LaserOutputPowerDbm diag) in
  let d :=
    match err with
    | None => interface_diagnostics.set_LaserOutputPowerDbm f d
    | Some _ => d
    end in
  if num_positive (diag_Diagnostics_ModuleVoltage diag) then
    let d :=
      interface_diagnostics.set_ModuleVoltage
        (float64_of_num (diag_Diagnostics_ModuleVoltage diag)) d in
    let d :=
      interface_diagnostics.set_RxSignalAvgOpticalPower
        (float64_of_num (diag_Diagnostics_RxSignalAvgOpticalPower diag)) d in
    let '(f, err) := ParseFloat (diag_Diagnostics_RxSignalAvgOpticalPowerDbm diag) in
    match err with
    | None => interface_diagnostics.set_RxSignalAvgOpticalPowerDbm f d
    | Some _ => d
    end
  else
    let d :=
      interface_diagnostics.set_LaserRxOpticalPower
        (float64_of_num (diag_Diagnostics_LaserRxOpticalPower diag)) d in
    let '(f, err) := ParseFloat (diag_Diagnostics_LaserRxOpticalPowerDbm diag) in
    match err with
    | None => interface_diagnostics.set_LaserRxOpticalPowerDbm f d
    | Some _ => d
    end.

Definition InterfaceDiagnostics (c : RpcClient)
    : list interface_diagnostics.InterfaceDiagnostics * option error :=
  let '(x, err) :=
    runCommandAndParse c "show interfaces diagnostics optics" InterfaceDiagnosticsRpc_zero in
  match err with
  | Some e => ([], Some e)
  | None =>
      let diagnostics :=
        fold_left
          (fun diagnostics diag =>
             if String.eqb (diag_Diagnostics_NA diag) "N/A" then diagnostics
             else
               let d := InterfaceDiagnostics_entry diag in
               diagnostics ++ [d])
          (diagnostics_Information_Diagnostics x) [] in
      (diagnostics, None)
  end.

(** The client is a datasource of the interface collector. *)
#[export] Instance RpcClient_InterfaceStatsDatasource
    : interfaces.InterfaceStatsDatasource RpcClient :=
  {| interfaces.datasource_InterfaceStats := InterfaceStats |}.

End Client.

End rpc.

(** ** What the loops compute

    The closed forms the properties below are stated with. *)

Section Views.
Import prometheus rpc.
Context {G : GoTypes} {N : XmlNum} {SC : Strconv} {RE : RegexpPkg} {U : Utf8}.

(** The records of one physical entry, in the order they are appended. *)
Definition InterfaceStats_of (phy : PhyInterface) : list interfaces.InterfaceStats :=
  InterfaceStats_phy phy :: map (InterfaceStats_log phy) (phy_LogicalInterfaces phy).

(** A gauge sample. *)
Definition gauge (d : Desc) (v : float64) (l : list string) : Metric :=
  {| desc := d; valueType := GaugeValue; value := v; labelValues := l |}.

(** The samples every record sends, and those a physical record adds. *)
Definition byte_samples (s : interfaces.InterfaceStats) (l : list string) : list Metric :=
  [gauge interfaces.receiveBytesDesc (interfaces.ReceiveBytes s) l;
   gauge interfaces.transmitBytesDesc (interfaces.TransmitBytes s) l].

Definition physical_samples (s : interfaces.InterfaceStats) (l : list string) : list Metric :=
  [gauge interfaces.adminStatusDesc
     (float64_of_int (interfaces.flag (interfaces.AdminStatus s))) l;
   gauge interfaces.operStatusDesc
     (float64_of_int (interfaces.flag (interfaces.OperStatus s))) l;
   gauge interfaces.errorStatusDesc
     (float64_of_int (interfaces.flag (interfaces.ErrorStatus s))) l;
   gauge interfaces.transmitErrorsDesc (interfaces.TransmitErrors s) l;
   gauge interfaces.transmitDropsDesc (interfaces.TransmitDrops s) l;
   gauge interfaces.receiveErrorsDesc (interfaces.ReceiveErrors s) l;
   gauge interfaces.receiveDropsDesc (interfaces.ReceiveDrops s) l].



(** An alarm detail that is not filtered and has the class [class]. *)
Definition alarm_counted (c : RpcClient) (class : string) (d : AlarmDetails) : bool :=
  negb (shouldFilterAlarm c d) && String.eqb (alarm_Class d) class.

Definition count_alarms (c : RpcClient) (class : string) (l : list AlarmDetails) : Z :=
  Z.of_nat (length (List.filter (alarm_counted c class) l)).

(** The number of details of class [class], filtered or not. *)
Definition count_class (class : string) (l : list AlarmDetails) : Z :=
  Z.of_nat (length (List.filter (fun d => String.eqb (alarm_Class d) class) l)).

(** The number of adjacencies in the state ["Up"]. *)
Definition count_up (l : list IsisAdjacency) : Z :=
  Z.of_nat (length (List.filter (fun a => String.eqb (adjacency_AdjacencyState a) "Up") l)).

(** The value of a dBm field read from [s]: the parsed number, or the
    zero value when the text does not parse. *)
Definition dbm_or_zero (s : string) : float64 :=
  match ParseFloat s with
  | (f, None) => f
  | (_, Some _) => float64_zero
  end.

(** The records of one entry of the optical diagnostics. *)
Definition InterfaceDiagnostics_of (diag : PhyDiagInterface)
    : list interface_diagnostics.InterfaceDiagnostics :=
  if String.eqb (diag_Diagnostics_NA diag) "N/A" then []
  else [InterfaceDiagnostics_entry diag].

(** The record of one protocol entry and of one table. *)
Definition ProtocolRouteCount_of (proto : RouteProtocol) : route.ProtocolRouteCount.t :=
  {| route.ProtocolRouteCount.Name := proto_Name proto;
     route.ProtocolRouteCount.Routes := float64_of_num (proto_Routes proto);
     route.ProtocolRouteCount.ActiveRoutes := float64_of_num (proto_ActiveRoutes proto) |}.

Definition RoutingTable_of (table : RouteTable) : route.RoutingTable :=
  {| route.Name := table_Name table;
     route.MaxRoutes := float64_of_num (table_MaxRoutes table);
     route.ActiveRoutes := float64_of_num (table_ActiveRoutes table);
     route.TotalRoutes := float64_of_num (table_TotalRoutes table);
     route.Protocols := map ProtocolRouteCount_of (table_Protocols table) |}.

(** The record of one entry of the map of [EnvironmentItems]. *)
Definition EnvironmentItem_of (nv : string * float64) : environment.EnvironmentItem :=
  {| environment.Name := fst nv; environment.Temperature := snd nv |}.

(** One step of the first loop of [EnvironmentItems]. *)
Definition EnvironmentItems_insert (list : gmap string float64) (item : EnvironmentEntry)
    : gmap string float64 :=
  match item_Temperature item with
  | Some value => <[item_Name item := float64_of_num value]> list
  | None => list
  end.

(** [item] is the last entry of its name with a temperature reading:
    no entry of [later] with that name has one. *)
Definition last_reading (item : EnvironmentEntry) (later : list EnvironmentEntry) : Prop :=
  forall item', In item' later -> item_Name item' = item_Name item ->
                item_Temperature item' = None.

(** The session of one peer and the record of one area. *)
Definition BgpSession_of (peer : BgpPeer) : bgp.BgpSession :=
  {| bgp.Ip := peer_Ip peer;
     bgp.Up := String.eqb (peer_State peer) "Established";
     bgp.Asn := peer_Asn peer;
     bgp.Flaps := float64_of_num (peer_Flaps peer);
     bgp.InputMessages := float64_of_num (peer_InputMessages peer);
     bgp.OutputMessages := float64_of_num (peer_OutputMessages peer);
     bgp.AcceptedPrefixes := float64_of_num (peer_Rib_AcceptedPrefixes peer);
     bgp.ActivePrefixes := float64_of_num (peer_Rib_ActivePrefixes peer);
     bgp.ReceivedPrefixes := float64_of_num (peer_Rib_ReceivedPrefixes peer);
     bgp.RejectedPrefixes := float64_of_num (peer_Rib_RejectedPrefixes peer) |}.

Definition OspfArea_of (area : Ospf3Area) : ospf.OspfArea :=
  {| ospf.Name := area_Name area;
     ospf.Neighbors := float64_of_num (area_Neighbors_NeighborsUp area) |}.

(** The number of logical interfaces nested in the entries of [l]. *)
Definition logical_count (l : list PhyInterface) : nat :=
  list_sum (map (fun phy => length (phy_LogicalInterfaces phy)) l).

(** The names of the records of the entries of [l], in the order the
    records are appended. *)
Definition interface_names (l : list PhyInterface) : list string :=
  flat_map (fun phy => phy_Name phy :: map log_Name (phy_LogicalInterfaces phy)) l.

(** The numbers of physical and of logical records of [stats]. *)
Definition physical_records (stats : list interfaces.InterfaceStats) : nat :=
  length (List.filter interfaces.IsPhysical stats).

Definition logical_records (stats : list interfaces.InterfaceStats) : nat :=
  length (List.filter (fun s => negb (interfaces.IsPhysical s)) stats).

(** The label values of the samples of the record [s]. *)
Definition labels_of (labelValues : list string) (s : interfaces.InterfaceStats)
    : list string :=
  labelValues ++ [interfaces.Name s; interfaces.Description s; interfaces.Mac s].

(** The label values [l] fit the descriptors of the collector: as many
    as their four label names, each valid UTF-8. *)
Definition labels_fit (l : list string) : bool :=
  (length l =? 4)%nat && forallb ValidString l.

(** The samples of the record [s] when its label values fit. *)
Definition samples_of (labelValues : list string) (s : interfaces.InterfaceStats)
    : list Metric :=
  byte_samples s (labels_of labelValues s) ++
  (if interfaces.IsPhysical s then physical_samples s (labels_of labelValues s) else []).

(** The strings of a physical entry and of its logical interfaces that
    become label values are valid UTF-8. *)
Definition valid_entry (phy : PhyInterface) : bool :=
  ValidString (phy_Name phy) && ValidString (phy_Description phy) &&
  ValidString (phy_MacAddress phy) &&
  forallb (fun log => ValidString (log_Name log) && ValidString (log_Description log))
          (phy_LogicalInterfaces phy).

(** The name, the physical flag and the hardware address of the records
    of the entries of [l], in the order the records are appended. *)
Definition interface_rows (l : list PhyInterface) : list (string * bool * string) :=
  flat_map
    (fun phy =>
       (phy_Name phy, true, phy_MacAddress phy) ::
       map (fun log => (log_Name log, false, phy_MacAddress phy))
           (phy_LogicalInterfaces phy))
    l.

(** An entry of the optical diagnostics that is not marked "N/A". *)
Definition has_optics (diag : PhyDiagInterface) : bool :=
  negb (String.eqb (diag_Diagnostics_NA diag) "N/A").

(** The temperature readings of [items], by name, in the order of the
    envelope; an item without a reading gives none. *)
Definition readings (items : list EnvironmentEntry) : list (string * float64) :=
  flat_map
    (fun item =>
       match item_Temperature item with
       | Some value => [(item_Name item, float64_of_num value)]
       | None => []
       end)
    items.

End Views.

(** ** Test doubles

    Concrete instances of the interfaces above, on which the client
    runs: IEEE binary64 numbers, a strconv and a regexp that agree with
    Go's on short plain decimals and on literal patterns, a device that
    answers from a table and a decoder that knows the replies of that
    device. *)

Module Fixture.

(** [float64(n)] for an [int] [n] above [-2^63]: the nearest binary64. *)
Definition nearest_float64 (z : Z) : float :=
  if (z <? 0)%Z then PrimFloat.opp (PrimFloat.of_uint63 (Uint63.of_Z (- z)))
  else PrimFloat.of_uint63 (Uint63.of_Z z).

#[export] Instance go : GoTypes :=
  {| error := string;
     float64 := float;
     float64_zero := 0%float;
     float64_of_int := nearest_float64 |}.

(** Numeric envelope fields declared [float64]. *)
#[export] Instance xml_float64 : XmlNum :=
  {| num := float;
     num_zero := 0%float;
     float64_of_num := fun v => v;
     num_positive := fun v => PrimFloat.ltb 0%float v |}.

Definition digit_of (a : ascii) : option Z :=
  let n := Z.of_nat (nat_of_ascii a) in
  if ((48 <=? n) && (n <=? 57))%Z then Some (n - 48)%Z else None.

(** Reads [digits[.digits]]: the digits as one integer and the number of
    digits after the point. *)
Fixpoint decimal (s : string) (m k : Z) (point digit : bool) : option (Z * Z) :=
  match s with
  | EmptyString => if digit then Some (m, k) else None
  | String a s' =>
      if Ascii.eqb a "."%char then
        if point then None else decimal s' m k true digit
      else
        match digit_of a with
        | Some d => decimal s' (10 * m + d)%Z (if point then (k + 1)%Z else k) point true
        | None => None
        end
  end.

(** A signed decimal [m / 10^k] with [m < 2^53] and [k <= 22] is the
    correctly rounded quotient of two exact binary64 numbers; any other
    text is refused. *)
Definition parse_decimal (s : string) : float * option string :=
  let '(neg, body) :=
    match s with
    | String "-"%char r => (true, r)
    | String "+"%char r => (false, r)
    | _ => (false, s)
    end in
  match decimal body 0 0 false false with
  | Some (m, k) =>
      if ((m <? 2 ^ 53) && (k <=? 22))%Z then
        let f := PrimFloat.div (PrimFloat.of_uint63 (Uint63.of_Z m))
                               (PrimFloat.of_uint63 (Uint63.of_Z (10 ^ k))) in
        (if neg then PrimFloat.opp f else f, None)
      else (0%float, Some ("strconv.ParseFloat: parsing " +:+ s +:+ ": not a short decimal"))
  | None => (0%float, Some ("strconv.ParseFloat: parsing " +:+ s +:+ ": invalid syntax"))
  end.

#[export] Instance strconv : Strconv := {| ParseFloat := parse_decimal |}.

(** [contains s pat]: [pat] occurs in [s]. *)
Fixpoint contains (s pat : string) : bool :=
  String.prefix pat s ||
  match s with
  | EmptyString => false
  | String _ s' => contains s' pat
  end.

(** The characters with a meaning of their own in a pattern (the first
    is the backslash). *)
Definition metacharacter (a : ascii) : bool :=
  existsb (Ascii.eqb a)
    (ascii_of_nat 92 ::
     ["."; "+"; "*"; "?"; "("; ")"; "|"; "["; "]"; "{"; "}"; "^"; "$"]%char).

Fixpoint literal (pattern : string) : bool :=
  match pattern with
  | EmptyString => true
  | String a pattern => negb (metacharacter a) && literal pattern
  end.

(** A pattern without metacharacters compiles and matches the strings it
    occurs in; any other pattern is refused. *)
#[export] Instance literal_regexp : RegexpPkg :=
  {| Regexp := string;
     MustCompile := fun pattern => if literal pattern then Returns pattern else Panics;
     MatchString := fun re s => contains s re |}.

(** [utf8.ValidString]: [need] bytes of the current character are still
    to come, the next of them between [lo] and [hi]. *)
Fixpoint valid_utf8 (s : string) (need : nat) (lo hi : Z) : bool :=
  match s with
  | EmptyString => (need =? 0)%nat
  | String a s' =>
      let b := Z.of_nat (nat_of_ascii a) in
      match need with
      | S need' => ((lo <=? b) && (b <=? hi))%Z && valid_utf8 s' need' 128 191
      | O =>
          if (b <? 128)%Z then valid_utf8 s' 0 128 191
          else if ((194 <=? b) && (b <=? 223))%Z then valid_utf8 s' 1 128 191
          else if (b =? 224)%Z then valid_utf8 s' 2 160 191
          else if (b =? 237)%Z then valid_utf8 s' 2 128 159
          else if ((225 <=? b) && (b <=? 239))%Z then valid_utf8 s' 2 128 191
          else if (b =? 240)%Z then valid_utf8 s' 3 144 191
          else if ((241 <=? b) && (b <=? 243))%Z then valid_utf8 s' 3 128 191
          else if (b =? 244)%Z then valid_utf8 s' 3 128 143
          else false
      end
  end.

#[export] Instance utf8 : Utf8 := {| ValidString := fun s => valid_utf8 s 0 128 191 |}.

#[export] Instance map_order : MapRange :=
  {| map_range := map_to_list;
     map_range_perm := fun m => Permutation_refl (map_to_list m) |}.

(** A device that answers the commands of [replies] and fails on any
    other. *)
Definition device (replies : list (string * (string * option string)))
    : connector.SshConnection :=
  {| connector.Host := "router1";
     connector.RunCommand := fun cmd =>
       match find (fun r => String.eqb (fst r) cmd) replies with
       | Some (_, (reply, err)) => (list_byte_of_string reply, err)
       | None => ([], Some "unknown command")
       end |}.

(** A decoder that decodes the replies of [envelopes] and fails on any
    other. *)
Definition decoder {A : Type} (envelopes : list (string * A)) : XmlUnmarshal A :=
  {| Unmarshal := fun b obj =>
       match find (fun r => String.eqb (fst r) (string_of_list_byte b)) envelopes with
       | Some (_, a) => (a, None)
       | None => (obj, Some "EOF")
       end |}.

End Fixture.

(** ** A router and its replies

    The inputs the properties are run on. *)

Module Scenario.
Import rpc Fixture.

Definition system_alarms : AlarmRpc :=
  {| alarm_Information_Details :=
       [{| alarm_Class := "Major"; alarm_Description := "fan failure"; alarm_Type := EmptyString |};
        {| alarm_Class := "Minor"; alarm_Description := "psu warn"; alarm_Type := EmptyString |};
        {| alarm_Class := "Major"; alarm_Description := "fan failure"; alarm_Type := EmptyString |}] |}.

Definition chassis_alarms : AlarmRpc := {| alarm_Information_Details := [] |}.

Definition ge_0_0_0 : PhyInterface :=
  {| phy_Name := "ge-0/0/0"; phy_AdminStatus := "up"; phy_OperStatus := "up";
     phy_Description := "uplink"; phy_MacAddress := "00:11:22:33:44:55";
     phy_Stats_InputBytes := 1500%float; phy_Stats_OutputBytes := 2500%float;
     phy_InputErrors_Drops := 1%float; phy_InputErrors_Errors := 2%float;
     phy_OutputErrors_Drops := 3%float; phy_OutputErrors_Errors := 4%float;
     phy_LogicalInterfaces :=
       [{| log_Name := "ge-0/0/0.0"; log_Description := "unit 0";
           log_Stats_InputBytes := 700%float; log_Stats_OutputBytes := 900%float |}] |}.

Definition ge_0_0_1 : PhyInterface :=
  {| phy_Name := "ge-0/0/1"; phy_AdminStatus := "up"; phy_OperStatus := "down";
     phy_Description := EmptyString; phy_MacAddress := "00:11:22:33:44:56";
     phy_Stats_InputBytes := 0%float; phy_Stats_OutputBytes := 0%float;
     phy_InputErrors_Drops := 0%float; phy_InputErrors_Errors := 0%float;
     phy_OutputErrors_Drops := 0%float; phy_OutputErrors_Errors := 0%float;
     phy_LogicalInterfaces := [] |}.

(** Administratively in test, operationally down. *)
Definition ge_0_0_2 : PhyInterface :=
  {| phy_Name := "ge-0/0/2"; phy_AdminStatus := "testing"; phy_OperStatus := "down";
     phy_Description := "lab"; phy_MacAddress := "00:11:22:33:44:57";
     phy_Stats_InputBytes := 10%float; phy_Stats_OutputBytes := 20%float;
     phy_InputErrors_Drops := 0%float; phy_InputErrors_Errors := 0%float;
     phy_OutputErrors_Drops := 0%float; phy_OutputErrors_Errors := 0%float;
     phy_LogicalInterfaces := [] |}.

Definition interface_statistics : InterfaceRpc :=
  {| interface_Information_Interfaces := [ge_0_0_0; ge_0_0_1; ge_0_0_2] |}.

Definition isis_adjacency : IsisRpc :=
  {| isis_Information_Adjacencies :=
       [{| adjacency_AdjacencyState := "Up" |};
        {| adjacency_AdjacencyState := "Down" |};
        {| adjacency_AdjacencyState := "Up" |}] |}.

Definition route_summary : RouteRpc :=
  {| route_Information_Tables :=
       [{| table_Name := "inet.0"; table_MaxRoutes := 0%float;
           table_ActiveRoutes := 155%float; table_TotalRoutes := 205%float;
           table_Protocols :=
             [{| proto_Name := "direct"; proto_Routes := 5%float;
                 proto_ActiveRoutes := 5%float |};
              {| proto_Name := "bgp"; proto_Routes := 200%float;
                 proto_ActiveRoutes := 150%float |}] |}] |}.

Definition fpc_0_first : EnvironmentEntry :=
  {| item_Name := "FPC 0"; item_Temperature := Some 40%float |}.
Definition pem_0 : EnvironmentEntry :=
  {| item_Name := "PEM 0"; item_Temperature := None |}.
Definition fpc_0_second : EnvironmentEntry :=
  {| item_Name := "FPC 0"; item_Temperature := Some 45%float |}.
Definition routing_engine_0 : EnvironmentEntry :=
  {| item_Name := "Routing Engine"; item_Temperature := Some 38%float |}.

Definition chassis_environment : EnvironmentRpc :=
  {| environment_Information_Items := [fpc_0_first; pem_0; fpc_0_second; routing_engine_0] |}.

(** No optics. *)
Definition xe_0_0_0 : PhyDiagInterface :=
  {| diag_Name := "xe-0/0/0"; diag_Diagnostics_NA := "N/A";
     diag_Diagnostics_LaserBiasCurrent := 0%float;
     diag_Diagnostics_LaserOutputPower := 0%float;
     diag_Diagnostics_LaserOutputPowerDbm := EmptyString;
     diag_Diagnostics_ModuleTemperature_Value := 0%float;
     diag_Diagnostics_ModuleVoltage := 0%float;
     diag_Diagnostics_RxSignalAvgOpticalPower := 0%float;
     diag_Diagnostics_RxSignalAvgOpticalPowerDbm := EmptyString;
     diag_Diagnostics_LaserRxOpticalPower := 0%float;
     diag_Diagnostics_LaserRxOpticalPowerDbm := EmptyString |}.

(** A module voltage, and no light received. *)
Definition xe_0_0_1 : PhyDiagInterface :=
  {| diag_Name := "xe-0/0/1"; diag_Diagnostics_NA := EmptyString;
     diag_Diagnostics_LaserBiasCurrent := 6.5%float;
     diag_Diagnostics_LaserOutputPower := 0.5%float;
     diag_Diagnostics_LaserOutputPowerDbm := "-3.01";
     diag_Diagnostics_ModuleTemperature_Value := 35%float;
     diag_Diagnostics_ModuleVoltage := 3.25%float;
     diag_Diagnostics_RxSignalAvgOpticalPower := 0%float;
     diag_Diagnostics_RxSignalAvgOpticalPowerDbm := "- Inf";
     diag_Diagnostics_LaserRxOpticalPower := 0.75%float;
     diag_Diagnostics_LaserRxOpticalPowerDbm := "-1.25" |}.

(** No module voltage, and no light sent. *)
Definition xe_0_0_2 : PhyDiagInterface :=
  {| diag_Name := "xe-0/0/2"; diag_Diagnostics_NA := EmptyString;
     diag_Diagnostics_LaserBiasCurrent := 7.5%float;
     diag_Diagnostics_LaserOutputPower := 0.25%float;
     diag_Diagnostics_LaserOutputPowerDbm := "- Inf";
     diag_Diagnostics_ModuleTemperature_Value := 36%float;
     diag_Diagnostics_ModuleVoltage := 0%float;
     diag_Diagnostics_RxSignalAvgOpticalPower := 0.125%float;
     diag_Diagnostics_RxSignalAvgOpticalPowerDbm := "-9.03";
     diag_Diagnostics_LaserRxOpticalPower := 0.75%float;
     diag_Diagnostics_LaserRxOpticalPowerDbm := "-1.25" |}.

Definition diagnostics_optics : InterfaceDiagnosticsRpc :=
  {| diagnostics_Information_Diagnostics := [xe_0_0_0; xe_0_0_1; xe_0_0_2] |}.

(** The decoders of the replies of [device]. *)
#[export] Instance XAlarm : XmlUnmarshal AlarmRpc :=
  decoder [("<system alarms>", system_alarms); ("<chassis alarms>", chassis_alarms)].
#[export] Instance XInterface : XmlUnmarshal InterfaceRpc :=
  decoder [("<interface statistics>", interface_statistics)].
#[export] Instance XIsis : XmlUnmarshal IsisRpc :=
  decoder [("<isis adjacency>", isis_adjacency)].
#[export] Instance XRoute : XmlUnmarshal RouteRpc :=
  decoder [("<route summary>", route_summary)].
#[export] Instance XEnvironment : XmlUnmarshal EnvironmentRpc :=
  decoder [("<chassis environment>", chassis_environment)].
#[export] Instance XDiagnostics : XmlUnmarshal InterfaceDiagnosticsRpc :=
  decoder [("<diagnostics optics>", diagnostics_optics)].
#[export] Instance XBgp : XmlUnmarshal BgpRpc := decoder [].
#[export] Instance XOspf3 : XmlUnmarshal Ospf3Rpc := decoder [].
#[export] Instance XRoutingEngine : XmlUnmarshal RoutingEngineRpc := decoder [].

Definition device : connector.SshConnection :=
  Fixture.device
    [("show system alarms | display xml", ("<system alarms>", None));
     ("show chassis alarms | display xml", ("<chassis alarms>", None));
     ("show interfaces statistics detail | display xml", ("<interface statistics>", None));
     ("show isis adjacency | display xml", ("<isis adjacency>", None));
     ("show route summary | display xml", ("<route summary>", None));
     ("show chassis environment | display xml", ("<chassis environment>", None));
     ("show interfaces diagnostics optics | display xml", ("<diagnostics optics>", None))].

(** A device that loses the session after the system alarms, and whose
    interface statistics are cut short. *)
Definition timeout : string := "ssh: session timed out".

Definition failing_device : connector.SshConnection :=
  Fixture.device
    [("show system alarms | display xml", ("<system alarms>", None));
     ("show chassis alarms | display xml", (EmptyString, Some timeout));
     ("show interfaces statistics detail | display xml", ("<interface stat", None));
     ("show isis adjacency | display xml", (EmptyString, Some timeout));
     ("show route summary | display xml", (EmptyString, Some timeout));
     ("show chassis environment | display xml", (EmptyString, Some timeout));
     ("show interfaces diagnostics optics | display xml", (EmptyString, Some timeout))].

(** The clients: with the filter "fan", without a filter, and on the
    failing device. *)
Definition client : RpcClient :=
  {| conn := device; debug := false; alarmFilter := Some "fan" |}.
Definition client_without_filter : RpcClient :=
  {| conn := device; debug := false; alarmFilter := None |}.
Definition failing_client : RpcClient :=
  {| conn := failing_device; debug := false; alarmFilter := None |}.

End Scenario.

(** ** A second router: routing protocols, and alarms the other way round *)

Module Routing.
Import rpc Fixture.

Definition peer_1 : BgpPeer :=
  {| peer_Ip := "192.0.2.1"; peer_State := "Established"; peer_Asn := "65001";
     peer_Flaps := 2%float; peer_InputMessages := 1200%float;
     peer_OutputMessages := 1100%float;
     peer_Rib_AcceptedPrefixes := 100%float; peer_Rib_ActivePrefixes := 98%float;
     peer_Rib_ReceivedPrefixes := 105%float; peer_Rib_RejectedPrefixes := 5%float |}.

Definition peer_2 : BgpPeer :=
  {| peer_Ip := "192.0.2.2"; peer_State := "Active"; peer_Asn := "65002";
     peer_Flaps := 7%float; peer_InputMessages := 10%float;
     peer_OutputMessages := 12%float;
     peer_Rib_AcceptedPrefixes := 0%float; peer_Rib_ActivePrefixes := 0%float;
     peer_Rib_ReceivedPrefixes := 0%float; peer_Rib_RejectedPrefixes := 0%float |}.

Definition bgp_summary : BgpRpc := {| bgp_Information_Peers := [peer_1; peer_2] |}.

Definition ospf3_overview : Ospf3Rpc :=
  {| ospf3_Information_Overview_Areas :=
       [{| area_Name := "0.0.0.0"; area_Neighbors_NeighborsUp := 3%float |};
        {| area_Name := "0.0.0.1"; area_Neighbors_NeighborsUp := 0%float |}] |}.

Definition routing_engine : RoutingEngineRpc :=
  {| re_Temperature_Value := 40%float; re_MemoryUtilization := 25%float;
     re_CPUTemperature_Value := 45%float; re_CPUUser := 3%float;
     re_CPUBackground := 0%float; re_CPUSystem := 2%float;
     re_CPUInterrupt := 1%float; re_CPUIdle := 94%float;
     re_LoadAverageOne := 0.25%float; re_LoadAAverageFive := 0.5%float;
     re_LoadAverageFifteen := 0.75%float |}.

(** Every sensor reports once. *)
Definition chassis_environment : EnvironmentRpc :=
  {| environment_Information_Items :=
       [{| item_Name := "PEM 0"; item_Temperature := None |};
        {| item_Name := "FPC 1"; item_Temperature := Some 41%float |};
        {| item_Name := "Routing Engine"; item_Temperature := Some 38%float |}] |}.

Definition XBgp : XmlUnmarshal BgpRpc := decoder [("<bgp summary>", bgp_summary)].
Definition XOspf3 : XmlUnmarshal Ospf3Rpc := decoder [("<ospf3 overview>", ospf3_overview)].
Definition XRoutingEngine : XmlUnmarshal RoutingEngineRpc :=
  decoder [("<routing engine>", routing_engine)].
Definition XEnvironment : XmlUnmarshal EnvironmentRpc :=
  decoder [("<chassis environment>", chassis_environment)].

(** The alarms of [Scenario], reported by the chassis instead of the
    system. *)
Definition device : connector.SshConnection :=
  Fixture.device
    [("show bgp summary | display xml", ("<bgp summary>", None));
     ("show ospf3 overview | display xml", ("<ospf3 overview>", None));
     ("show chassis routing-engine | display xml", ("<routing engine>", None));
     ("show chassis environment | display xml", ("<chassis environment>", None));
     ("show system alarms | display xml", ("<chassis alarms>", None));
     ("show chassis alarms | display xml", ("<system alarms>", None))].

Definition client : RpcClient :=
  {| conn := device; debug := true; alarmFilter := Some "fan" |}.

(** The entries of a map from the last to the first. *)
Definition reversed_order : MapRange :=
  {| map_range := fun m => rev (map_to_list m);
     map_range_perm := fun m => Permutation_sym (Permutation_rev (map_to_list m)) |}.

End Routing.

(** ** Properties of the client and of the collector *)

Section Properties.
Import prometheus rpc.
Context {G : GoTypes} {N : XmlNum} {SC : Strconv} {RE : RegexpPkg} {MR : MapRange}
        {U : Utf8}.
Context {XAlarm : XmlUnmarshal AlarmRpc} {XInterface : XmlUnmarshal InterfaceRpc}
        {XBgp : XmlUnmarshal BgpRpc} {XOspf3 : XmlUnmarshal Ospf3Rpc}
        {XIsis : XmlUnmarshal IsisRpc} {XRoute : XmlUnmarshal RouteRpc}
        {XRoutingEngine : XmlUnmarshal RoutingEngineRpc}
        {XEnvironment : XmlUnmarshal EnvironmentRpc}
        {XDiagnostics : XmlUnmarshal InterfaceDiagnosticsRpc}.

(** *** Loops that append *)

Lemma fold_left_append_flat_map {A B : Type} (f : A -> list B) (l : list A) (acc : list B) :
  fold_left (fun acc a => acc ++ f a) l acc = acc ++ flat_map f l.
Proof.
  revert acc. induction l as [|a l IH]; intros acc; simpl.
  - now rewrite app_nil_r.
  - rewrite IH. now rewrite <- app_assoc.
Qed.

Lemma fold_left_append_map {A B : Type} (f : A -> B) (l : list A) (acc : list B) :
  fold_left (fun acc a => acc ++ [f a]) l acc = acc ++ map f l.
Proof.
  revert acc. induction l as [|a l IH]; intros acc; simpl.
  - now rewrite app_nil_r.
  - rewrite IH. now rewrite <- app_assoc.
Qed.

Lemma fold_left_ext_in {A B : Type} (f g : B -> A -> B) (l : list A) (acc : B) :
  (forall b a, In a l -> f b a = g b a) -> fold_left f l acc = fold_left g l acc.
Proof.
  revert acc. induction l as [|a l IH]; intros acc Hfg; simpl; [reflexivity|].
  rewrite Hfg by (left; reflexivity). apply IH.
  intros b a' Hin. apply Hfg. now right.
Qed.


(** *** The counters stay in range *)

Lemma int_incr_in_range (n : Z) : (0 <= n < max_int)%Z -> int_incr n = (n + 1)%Z.
Proof.
  unfold int_incr, int_wrap, max_int. intros Hn.
  rewrite Z.mod_small by lia. lia.
Qed.

(** *** The commands *)

(** An error of [runCommandAndParse] is an error of the channel or, the
    channel having answered, an error of the decoder. *)
Lemma runCommandAndParse_error {A : Type} {X : XmlUnmarshal A}
    (c : RpcClient) (cmd : string) (obj : A) (e : error) :
  snd (runCommandAndParse c cmd obj) = Some e <->
  (snd (connector.RunCommand (conn c) (cmd +:+ " | display xml")) = Some e \/
   exists b, connector.RunCommand (conn c) (cmd +:+ " | display xml") = (b, None) /\
             snd (Unmarshal b obj) = Some e).
Proof.
  unfold runCommandAndParse.
  destruct (connector.RunCommand (conn c) (cmd +:+ " | display xml")) as [b [e'|]]; simpl.
  - split; [intros H; now left|].
    intros [H|[b' [H _]]]; [exact H|discriminate].
  - split.
    + intros H. right. exists b. now split.
    + intros [H|[b' [H H']]]; [discriminate|]. now inversion H; subst.
Qed.

(** *** Interfaces *)

Lemma InterfaceStats_records (c : RpcClient) (x : InterfaceRpc) :
  runCommandAndParse c "show interfaces statistics detail" InterfaceRpc_zero = (x, None) ->
  InterfaceStats c = (flat_map InterfaceStats_of (interface_Information_Interfaces x), None).
Proof.
  intros Hrun. unfold InterfaceStats. rewrite Hrun. f_equal.
  rewrite <- (app_nil_l (flat_map _ _)).
  rewrite <- fold_left_append_flat_map.
  apply fold_left_ext_in. intros stats phy _.
  unfold InterfaceStats_of. rewrite fold_left_append_map.
  now rewrite <- app_assoc.
Qed.

Lemma InterfaceStats_phy_status (phy : PhyInterface) :
  let s := InterfaceStats_phy phy in
  interfaces.AdminStatus s = String.eqb (phy_AdminStatus phy) "up" /\
  interfaces.OperStatus s = String.eqb (phy_OperStatus phy) "up" /\
  (interfaces.ErrorStatus s = true <-> phy_AdminStatus phy <> phy_OperStatus phy) /\
  (interfaces.AdminStatus s <> interfaces.OperStatus s -> interfaces.ErrorStatus s = true) /\
  (phy_AdminStatus phy = "up" -> phy_OperStatus phy = "up" ->
   interfaces.ErrorStatus s = false /\
   interfaces.AdminStatus s = true /\ interfaces.OperStatus s = true).
Proof.
  simpl. repeat split.
  - intros H Heq. rewrite Heq, String.eqb_refl in H. discriminate.
  - intros H. apply negb_true_iff. now apply String.eqb_neq.
  - intros H. apply negb_true_iff. apply String.eqb_neq. intros Heq.
    apply H. now rewrite Heq.
  - rewrite H, H0. reflexivity.
  - rewrite H. reflexivity.
  - rewrite H0. reflexivity.
Qed.

(** C1 (as amended).  Every physical record of [InterfaceStats] comes
    from a physical entry of the envelope; its admin and operational
    booleans are the comparisons of the two status strings to "up", and
    its error-status is true if and only if the two status strings
    differ.  So error-status is true whenever the two booleans differ,
    and when both strings are "up" it is false and both booleans are
    true. *)
Theorem InterfaceStats_error_status (c : RpcClient) (x : InterfaceRpc) :
  runCommandAndParse c "show interfaces statistics detail" InterfaceRpc_zero = (x, None) ->
  exists stats,
    InterfaceStats c = (stats, None) /\
    (forall phy, In phy (interface_Information_Interfaces x) ->
                 In (InterfaceStats_phy phy) stats) /\
    (forall s, In s stats -> interfaces.IsPhysical s = true ->
       exists phy,
         In phy (interface_Information_Interfaces x) /\ s = InterfaceStats_phy phy /\
         interfaces.AdminStatus s = String.eqb (phy_AdminStatus phy) "up" /\
         interfaces.OperStatus s = String.eqb (phy_OperStatus phy) "up" /\
         (interfaces.ErrorStatus s = true <-> phy_AdminStatus phy <> phy_OperStatus phy) /\
         (interfaces.AdminStatus s <> interfaces.OperStatus s ->
          interfaces.ErrorStatus s = true) /\
         (phy_AdminStatus phy = "up" -> phy_OperStatus phy = "up" ->
          interfaces.ErrorStatus s = false /\
          interfaces.AdminStatus s = true /\ interfaces.OperStatus s = true)).
Proof.
  intros Hrun. eexists. split; [apply InterfaceStats_records; exact Hrun|]. split.
  - intros phy Hphy. apply in_flat_map. exists phy. split; [exact Hphy|]. now left.
  - intros s Hs Hphys. apply in_flat_map in Hs. destruct Hs as [phy [Hphy Hs]].
    destruct Hs as [Hs|Hs].
    + exists phy. subst s. split; [exact Hphy|]. split; [reflexivity|].
      apply InterfaceStats_phy_status.
    + apply in_map_iff in Hs. destruct Hs as [log [Hs _]]. subst s. discriminate.
Qed.

(** *** Logical interfaces and the samples of the collector *)

(** The nine descriptors have four label names, so a sample is made
    exactly when its label values fit. *)
Lemma MustNewConstMetric_fit (d : Desc) (v : float64) (l : list string) :
  length (variableLabels d) = 4%nat ->
  MustNewConstMetric d GaugeValue v l =
  if labels_fit l then Returns (gauge d v l) else Panics.
Proof. intros Hd. unfold MustNewConstMetric, labels_fit. now rewrite Hd. Qed.

Lemma labels_fit_iff (labelValues : list string) (s : interfaces.InterfaceStats) :
  labels_fit (labels_of labelValues s) = true <->
  length labelValues = 1%nat /\ forallb ValidString (labels_of labelValues s) = true.
Proof.
  unfold labels_fit, labels_of. rewrite andb_true_iff, Nat.eqb_eq, List.length_app.
  cbn [length]. split; intros [Hlen Hvalid]; (split; [lia|exact Hvalid]).
Qed.

Lemma collectForInterface_fit (s : interfaces.InterfaceStats)
    (ch : list Metric) (labelValues : list string) :
  labels_fit (labels_of labelValues s) = true ->
  interfaces.collectForInterface s ch labelValues =
  (ch ++ samples_of labelValues s, Returns tt).
Proof.
  intros Hfit. unfold interfaces.collectForInterface, samples_of. cbv zeta.
  fold (labels_of labelValues s).
  rewrite !MustNewConstMetric_fit by reflexivity. rewrite Hfit.
  unfold byte_samples, physical_samples.
  destruct (interfaces.IsPhysical s); cbn [interfaces.send];
    repeat rewrite <- app_assoc; reflexivity.
Qed.

Lemma collectForInterface_unfit (s : interfaces.InterfaceStats)
    (ch : list Metric) (labelValues : list string) :
  labels_fit (labels_of labelValues s) = false ->
  interfaces.collectForInterface s ch labelValues = (ch, Panics).
Proof.
  intros Hfit. unfold interfaces.collectForInterface. cbv zeta.
  fold (labels_of labelValues s).
  rewrite !MustNewConstMetric_fit by reflexivity. rewrite Hfit. reflexivity.
Qed.

(** What [collectForInterface] leaves in the channel, in either case. *)
Lemma collectForInterface_sent (s : interfaces.InterfaceStats)
    (ch : list Metric) (labelValues : list string) :
  fst (interfaces.collectForInterface s ch labelValues) =
  ch ++ (if labels_fit (labels_of labelValues s) then samples_of labelValues s else []).
Proof.
  destruct (labels_fit (labels_of labelValues s)) eqn:Hfit.
  - now rewrite collectForInterface_fit.
  - rewrite collectForInterface_unfit by exact Hfit. simpl. now rewrite app_nil_r.
Qed.

Lemma Collect_stats_fit (stats : list interfaces.InterfaceStats)
    (ch : list Metric) (labelValues : list string) :
  (forall s, In s stats -> labels_fit (labels_of labelValues s) = true) ->
  interfaces.Collect_stats stats ch labelValues =
  (ch ++ flat_map (samples_of labelValues) stats, Returns tt).
Proof.
  revert ch. induction stats as [|s stats IH]; intros ch Hfit.
  - simpl. now rewrite app_nil_r.
  - cbn [interfaces.Collect_stats flat_map].
    rewrite collectForInterface_fit by (apply Hfit; now left).
    rewrite IH by (intros s' Hs'; apply Hfit; now right).
    now rewrite <- app_assoc.
Qed.

Lemma Collect_samples {D : Type} {DS : interfaces.InterfaceStatsDatasource D}
    (datasource : D) (ch : list Metric) (labelValues : list string)
    (stats : list interfaces.InterfaceStats) :
  interfaces.datasource_InterfaceStats datasource = (stats, None) ->
  (forall s, In s stats -> labels_fit (labels_of labelValues s) = true) ->
  interfaces.Collect datasource ch labelValues =
  (ch ++ flat_map (samples_of labelValues) stats, Returns None).
Proof.
  intros Hds Hfit. unfold interfaces.Collect. rewrite Hds.
  now rewrite Collect_stats_fit.
Qed.



(** *** Alarms *)

Lemma count_alarms_cons (c : RpcClient) (class : string) (d : AlarmDetails)
    (l : list AlarmDetails) :
  count_alarms c class (d :: l) =
  ((if alarm_counted c class d then 1 else 0) + count_alarms c class l)%Z.
Proof.
  unfold count_alarms. cbn [List.filter]. destruct (alarm_counted c class d).
  - cbn [length]. rewrite Nat2Z.inj_succ. lia.
  - lia.
Qed.

Lemma count_alarms_bounds (c : RpcClient) (class : string) (l : list AlarmDetails) :
  (0 <= count_alarms c class l <= Z.of_nat (length l))%Z.
Proof.
  unfold count_alarms. pose proof (List.filter_length_le (alarm_counted c class) l). lia.
Qed.

Lemma AlarmCounter_detail_counts (c : RpcClient) (d : AlarmDetails) (red yellow : Z) :
  (0 <= red < max_int)%Z -> (0 <= yellow < max_int)%Z ->
  AlarmCounter_detail c (red, yellow) d =
  ((red + (if alarm_counted c "Major" d then 1 else 0))%Z,
   (yellow + (if alarm_counted c "Minor" d then 1 else 0))%Z).
Proof.
  intros Hred Hyellow. unfold AlarmCounter_detail, alarm_counted.
  destruct (shouldFilterAlarm c d); simpl.
  - f_equal; lia.
  - destruct (String.eqb (alarm_Class d) "Major") eqn:Hmajor.
    + apply String.eqb_eq in Hmajor. rewrite Hmajor. simpl.
      rewrite int_incr_in_range by exact Hred. f_equal; lia.
    + destruct (String.eqb (alarm_Class d) "Minor").
      * rewrite int_incr_in_range by exact Hyellow. f_equal; lia.
      * f_equal; lia.
Qed.

Lemma AlarmCounter_details_count (c : RpcClient) (l : list AlarmDetails) (red yellow : Z) :
  (0 <= red)%Z -> (0 <= yellow)%Z ->
  (red + Z.of_nat (length l) <= max_int)%Z ->
  (yellow + Z.of_nat (length l) <= max_int)%Z ->
  fold_left (AlarmCounter_detail c) l (red, yellow) =
  ((red + count_alarms c "Major" l)%Z, (yellow + count_alarms c "Minor" l)%Z).
Proof.
  revert red yellow. induction l as [|d l IH]; intros red yellow Hred Hyellow Hr Hy.
  - unfold count_alarms. simpl. f_equal; lia.
  - cbn [fold_left]. cbn [length] in Hr, Hy. rewrite Nat2Z.inj_succ in Hr, Hy.
    rewrite AlarmCounter_detail_counts by lia.
    rewrite IH.
    + rewrite !count_alarms_cons. f_equal; lia.
    + destruct (alarm_counted c "Major" d); lia.
    + destruct (alarm_counted c "Minor" d); lia.
    + destruct (alarm_counted c "Major" d); lia.
    + destruct (alarm_counted c "Minor" d); lia.
Qed.

Lemma count_alarms_app (c : RpcClient) (class : string) (l1 l2 : list AlarmDetails) :
  count_alarms c class (l1 ++ l2) = (count_alarms c class l1 + count_alarms c class l2)%Z.
Proof.
  unfold count_alarms. rewrite List.filter_app, List.length_app. lia.
Qed.

(** Both commands answered and decoded: the counts over the details of
    both, in one result. *)
Lemma AlarmCounter_counts (c : RpcClient) (system chassis : AlarmRpc) :
  runCommandAndParse c "show system alarms" AlarmRpc_zero = (system, None) ->
  runCommandAndParse c "show chassis alarms" AlarmRpc_zero = (chassis, None) ->
  (Z.of_nat (length (alarm_Information_Details system ++
                     alarm_Information_Details chassis)) <= max_int)%Z ->
  AlarmCounter c =
  (Some {| alarm.RedCount := float64_of_int
             (count_alarms c "Major"
                (alarm_Information_Details system ++ alarm_Information_Details chassis));
           alarm.YellowCount := float64_of_int
             (count_alarms c "Minor"
                (alarm_Information_Details system ++ alarm_Information_Details chassis)) |},
   None).
Proof.
  intros Hsys Hcha Hlen. rewrite length_app in Hlen.
  unfold AlarmCounter. cbv zeta. cbn [AlarmCounter_cmds].
  rewrite Hsys. rewrite AlarmCounter_details_count by lia.
  rewrite Hcha.
  pose proof (count_alarms_bounds c "Major" (alarm_Information_Details system)).
  pose proof (count_alarms_bounds c "Minor" (alarm_Information_Details system)).
  rewrite AlarmCounter_details_count by lia.
  rewrite !count_alarms_app. reflexivity.
Qed.

Lemma shouldFilterAlarm_matches (c : RpcClient) (re : Regexp) (d : AlarmDetails) :
  alarmFilter c = Some re ->
  (shouldFilterAlarm c d = true <->
   MatchString re (alarm_Description d) = true \/ MatchString re (alarm_Type d) = true).
Proof.
  intros Hre. unfold shouldFilterAlarm. rewrite Hre. apply orb_true_iff.
Qed.

Lemma alarm_counted_iff (c : RpcClient) (class : string) (d : AlarmDetails) :
  alarm_counted c class d = true <->
  shouldFilterAlarm c d = false /\ alarm_Class d = class.
Proof.
  unfold alarm_counted. rewrite andb_true_iff, negb_true_iff, String.eqb_eq. reflexivity.
Qed.

(** C2 (as amended).  With a filter pattern configured, [AlarmCounter]
    leaves out exactly the alarm details whose description or type the
    pattern matches, counts each remaining detail of class "Major" in the
    red tally and each of class "Minor" in the yellow tally, counts a
    detail of any other class in neither, and returns one result for the
    details of both commands.  For the details [Major "fan failure";
    Minor "psu warn"; Major "fan failure"] and the filter "fan", which
    matches both descriptions "fan failure", the result is red = 0 and
    yellow = 1. *)
Theorem AlarmCounter_filter_tally (c : RpcClient) (re : Regexp) (system chassis : AlarmRpc) :
  alarmFilter c = Some re ->
  runCommandAndParse c "show system alarms" AlarmRpc_zero = (system, None) ->
  runCommandAndParse c "show chassis alarms" AlarmRpc_zero = (chassis, None) ->
  let details := alarm_Information_Details system ++ alarm_Information_Details chassis in
  (Z.of_nat (length details) <= max_int)%Z ->
  AlarmCounter c =
    (Some {| alarm.RedCount := float64_of_int (count_alarms c "Major" details);
             alarm.YellowCount := float64_of_int (count_alarms c "Minor" details) |},
     None) /\
  (forall d,
     shouldFilterAlarm c d = true <->
     MatchString re (alarm_Description d) = true \/ MatchString re (alarm_Type d) = true) /\
  (forall class d,
     alarm_counted c class d = true <->
     (MatchString re (alarm_Description d) = false /\
      MatchString re (alarm_Type d) = false) /\
     alarm_Class d = class) /\
  (forall type1 type2 type3,
     MustCompile "fan" = Returns re ->
     MatchString re "fan failure" = true ->
     MatchString re "psu warn" = false ->
     MatchString re type2 = false ->
     details =
       [{| alarm_Class := "Major"; alarm_Description := "fan failure"; alarm_Type := type1 |};
        {| alarm_Class := "Minor"; alarm_Description := "psu warn"; alarm_Type := type2 |};
        {| alarm_Class := "Major"; alarm_Description := "fan failure"; alarm_Type := type3 |}] ->
     AlarmCounter c =
       (Some {| alarm.RedCount := float64_of_int 0;
                alarm.YellowCount := float64_of_int 1 |}, None)).
Proof.
  intros Hre Hsys Hcha details Hlen.
  pose proof (AlarmCounter_counts c system chassis Hsys Hcha Hlen) as Hcount.
  fold details in Hcount.
  split; [exact Hcount|]. split; [|split].
  - intros d. now apply shouldFilterAlarm_matches.
  - intros class d. rewrite alarm_counted_iff.
    unfold shouldFilterAlarm. rewrite Hre. rewrite orb_false_iff. reflexivity.
  - intros type1 type2 type3 _ Hfan Hpsu Htype Hdetails. rewrite Hcount, Hdetails.
    unfold count_alarms, alarm_counted, shouldFilterAlarm. rewrite Hre.
    cbn [List.filter alarm_Description alarm_Type alarm_Class].
    rewrite Hfan, Hpsu, Htype. reflexivity.
Qed.

Lemma count_alarms_no_filter (c : RpcClient) (class : string) (l : list AlarmDetails) :
  alarmFilter c = None -> count_alarms c class l = count_class class l.
Proof.
  intros Hnone. unfold count_alarms, count_class. do 2 f_equal.
  apply List.filter_ext. intros d. unfold alarm_counted, shouldFilterAlarm.
  now rewrite Hnone.
Qed.

(** C10.  [NewClient] with the empty filter string returns a client
    that has no compiled filter; [shouldFilterAlarm] is false on every
    alarm detail, and the tallies of [AlarmCounter] count every detail of
    class "Major" and every detail of class "Minor" of both commands. *)
Theorem NewClient_empty_filter (ssh : connector.SshConnection) (debug : bool)
    (system chassis : AlarmRpc) :
  let c := {| conn := ssh; rpc.debug := debug; alarmFilter := None |} in
  runCommandAndParse c "show system alarms" AlarmRpc_zero = (system, None) ->
  runCommandAndParse c "show chassis alarms" AlarmRpc_zero = (chassis, None) ->
  let details := alarm_Information_Details system ++ alarm_Information_Details chassis in
  (Z.of_nat (length details) <= max_int)%Z ->
  NewClient ssh debug EmptyString = Returns c /\
  alarmFilter c = None /\
  (forall d, shouldFilterAlarm c d = false) /\
  AlarmCounter c =
    (Some {| alarm.RedCount := float64_of_int (count_class "Major" details);
             alarm.YellowCount := float64_of_int (count_class "Minor" details) |},
     None).
Proof.
  intros c Hsys Hcha details Hlen.
  assert (Hnone : alarmFilter c = None) by reflexivity.
  split; [reflexivity|]. split; [exact Hnone|]. split.
  - intros d. unfold shouldFilterAlarm. now rewrite Hnone.
  - rewrite (AlarmCounter_counts c system chassis Hsys Hcha Hlen).
    fold details. now rewrite !count_alarms_no_filter.
Qed.

(** *** ISIS adjacencies *)

Lemma count_up_bounds (l : list IsisAdjacency) :
  (0 <= count_up l <= Z.of_nat (length l))%Z.
Proof.
  unfold count_up.
  pose proof (List.filter_length_le
                (fun a => String.eqb (adjacency_AdjacencyState a) "Up") l). lia.
Qed.

Lemma IsisAdjancies_adjacencies_count (l : list IsisAdjacency) (up total : Z) :
  (0 <= up <= total)%Z ->
  (total + Z.of_nat (length l) <= max_int)%Z ->
  fold_left IsisAdjancies_adjacency l (up, total) =
  ((up + count_up l)%Z, (total + Z.of_nat (length l))%Z).
Proof.
  revert up total. induction l as [|a l IH]; intros up total Hup Htotal.
  - unfold count_up. simpl. f_equal; lia.
  - cbn [fold_left]. cbn [length] in Htotal. rewrite Nat2Z.inj_succ in Htotal.
    unfold IsisAdjancies_adjacency at 2.
    unfold count_up. cbn [List.filter length].
    destruct (String.eqb (adjacency_AdjacencyState a) "Up").
    + rewrite !int_incr_in_range by lia. rewrite IH by lia.
      unfold count_up. cbn [length]. rewrite !Nat2Z.inj_succ. f_equal; lia.
    + rewrite !int_incr_in_range by lia. rewrite IH by lia.
      unfold count_up. rewrite !Nat2Z.inj_succ. f_equal; lia.
Qed.

(** C9.  The aggregate of [IsisAdjancies] holds the conversions to
    [float64] of two integers [up] and [total] with [0 <= up <= total],
    where [total] is the number of adjacency entries and [up] the number
    of entries whose state is "Up". *)
Theorem IsisAdjancies_up_le_total (c : RpcClient) (x : IsisRpc) :
  runCommandAndParse c "show isis adjacency" IsisRpc_zero = (x, None) ->
  (Z.of_nat (length (isis_Information_Adjacencies x)) <= max_int)%Z ->
  exists up total : Z,
    IsisAdjancies c =
      (Some {| isis.Up := float64_of_int up; isis.Total := float64_of_int total |}, None) /\
    total = Z.of_nat (length (isis_Information_Adjacencies x)) /\
    up = count_up (isis_Information_Adjacencies x) /\
    (0 <= up <= total)%Z.
Proof.
  intros Hrun Hlen.
  exists (count_up (isis_Information_Adjacencies x)),
         (Z.of_nat (length (isis_Information_Adjacencies x))).
  split; [|split; [reflexivity|split; [reflexivity|apply count_up_bounds]]].
  unfold IsisAdjancies. cbv zeta. rewrite Hrun.
  rewrite IsisAdjancies_adjacencies_count by lia. reflexivity.
Qed.

(** *** Routing tables *)

Lemma RoutingTables_protocols (protos : list RouteProtocol) (t : route.RoutingTable) :
  fold_left
    (fun t proto =>
       let p :=
         {| route.ProtocolRouteCount.Name := proto_Name proto;
            route.ProtocolRouteCount.Routes := float64_of_num (proto_Routes proto);
            route.ProtocolRouteCount.ActiveRoutes :=
              float64_of_num (proto_ActiveRoutes proto) |} in
       append_Protocols p t)
    protos t =
  {| route.Name := route.Name t;
     route.MaxRoutes := route.MaxRoutes t;
     route.ActiveRoutes := route.ActiveRoutes t;
     route.TotalRoutes := route.TotalRoutes t;
     route.Protocols := route.Protocols t ++ map ProtocolRouteCount_of protos |}.
Proof.
  revert t. induction protos as [|proto protos IH]; intros t.
  - simpl. rewrite app_nil_r. now destruct t.
  - cbn [fold_left]. rewrite IH. cbv zeta. unfold append_Protocols. simpl.
    now rewrite <- app_assoc.
Qed.

(** C8.  [RoutingTables] returns one record per table of the envelope, in
    the order of the envelope, and the protocol list of each record holds
    the records of the protocol entries of its table in the order of the
    envelope: the names of the output protocols are the names of the
    input protocols in the same order, so entries [direct; bgp] give the
    protocols [direct; bgp]. *)
Theorem RoutingTables_protocol_order (c : RpcClient) (x : RouteRpc) :
  runCommandAndParse c "show route summary" RouteRpc_zero = (x, None) ->
  exists tables,
    RoutingTables c = (tables, None) /\
    tables = map RoutingTable_of (route_Information_Tables x) /\
    length tables = length (route_Information_Tables x) /\
    (forall (i : nat) (table : RouteTable),
       nth_error (route_Information_Tables x) i = Some table ->
       exists t,
         nth_error tables i = Some t /\
         route.Name t = table_Name table /\
         route.Protocols t = map ProtocolRouteCount_of (table_Protocols table) /\
         map route.ProtocolRouteCount.Name (route.Protocols t) =
           map proto_Name (table_Protocols table) /\
         (forall j proto,
            nth_error (table_Protocols table) j = Some proto ->
            nth_error (route.Protocols t) j = Some (ProtocolRouteCount_of proto)) /\
         (map proto_Name (table_Protocols table) = ["direct"; "bgp"] ->
          map route.ProtocolRouteCount.Name (route.Protocols t) = ["direct"; "bgp"])).
Proof.
  intros Hrun. exists (map RoutingTable_of (route_Information_Tables x)).
  split; [|split; [reflexivity|split; [apply length_map|]]].
  - unfold RoutingTables. rewrite Hrun. f_equal.
    rewrite <- (app_nil_l (map _ _)). rewrite <- fold_left_append_map.
    apply fold_left_ext_in. intros tables table _. cbv zeta.
    rewrite RoutingTables_protocols. reflexivity.
  - intros i table Hi. exists (RoutingTable_of table).
    assert (Hnames : map route.ProtocolRouteCount.Name
                       (route.Protocols (RoutingTable_of table)) =
                     map proto_Name (table_Protocols table)).
    { simpl. rewrite map_map. reflexivity. }
    split; [now apply map_nth_error|]. split; [reflexivity|]. split; [reflexivity|].
    split; [exact Hnames|]. split.
    + intros j proto Hj. simpl. now apply map_nth_error.
    + intros Hin. now rewrite Hnames.
Qed.

(** *** Optical diagnostics *)

Lemma InterfaceDiagnostics_records (c : RpcClient) (x : InterfaceDiagnosticsRpc) :
  runCommandAndParse c "show interfaces diagnostics optics" InterfaceDiagnosticsRpc_zero
    = (x, None) ->
  InterfaceDiagnostics c =
  (flat_map InterfaceDiagnostics_of (diagnostics_Information_Diagnostics x), None).
Proof.
  intros Hrun. unfold InterfaceDiagnostics. rewrite Hrun. f_equal.
  rewrite <- (app_nil_l (flat_map _ _)). rewrite <- fold_left_append_flat_map.
  apply fold_left_ext_in. intros diagnostics diag _. unfold InterfaceDiagnostics_of.
  destruct (String.eqb (diag_Diagnostics_NA diag) "N/A"); [now rewrite app_nil_r|reflexivity].
Qed.

(** The fields of the record of an entry, branch by branch. *)
Lemma InterfaceDiagnostics_entry_fields (diag : PhyDiagInterface) :
  let d := InterfaceDiagnostics_entry diag in
  interface_diagnostics.Name d = diag_Name diag /\
  interface_diagnostics.LaserOutputPowerDbm d =
    dbm_or_zero (diag_Diagnostics_LaserOutputPowerDbm diag) /\
  (num_positive (diag_Diagnostics_ModuleVoltage diag) = true ->
   interface_diagnostics.ModuleVoltage d =
     float64_of_num (diag_Diagnostics_ModuleVoltage diag) /\
   interface_diagnostics.RxSignalAvgOpticalPower d =
     float64_of_num (diag_Diagnostics_RxSignalAvgOpticalPower diag) /\
   interface_diagnostics.RxSignalAvgOpticalPowerDbm d =
     dbm_or_zero (diag_Diagnostics_RxSignalAvgOpticalPowerDbm diag) /\
   interface_diagnostics.LaserRxOpticalPower d = float64_zero /\
   interface_diagnostics.LaserRxOpticalPowerDbm d = float64_zero) /\
  (num_positive (diag_Diagnostics_ModuleVoltage diag) = false ->
   interface_diagnostics.LaserRxOpticalPower d =
     float64_of_num (diag_Diagnostics_LaserRxOpticalPower diag) /\
   interface_diagnostics.LaserRxOpticalPowerDbm d =
     dbm_or_zero (diag_Diagnostics_LaserRxOpticalPowerDbm diag) /\
   interface_diagnostics.ModuleVoltage d = float64_zero /\
   interface_diagnostics.RxSignalAvgOpticalPower d = float64_zero /\
   interface_diagnostics.RxSignalAvgOpticalPowerDbm d = float64_zero).
Proof.
  unfold InterfaceDiagnostics_entry, dbm_or_zero.
  destruct (ParseFloat (diag_Diagnostics_LaserOutputPowerDbm diag)) as [f1 [e1|]];
  destruct (ParseFloat (diag_Diagnostics_RxSignalAvgOpticalPowerDbm diag)) as [f2 [e2|]];
  destruct (ParseFloat (diag_Diagnostics_LaserRxOpticalPowerDbm diag)) as [f3 [e3|]];
  destruct (num_positive (diag_Diagnostics_ModuleVoltage diag));
  cbv zeta; simpl; repeat split; intros; try discriminate; reflexivity.
Qed.

(** C3.  [InterfaceDiagnostics] returns no record for an entry whose
    marker is "N/A" and exactly one record for any other entry.  In that
    record, when the module voltage is positive, the module voltage, the
    RX average optical power and its dBm value are set and the laser RX
    optical power and its dBm value keep their zero values; otherwise the
    laser RX optical power and its dBm value are set and the module
    voltage and the RX average fields keep their zero values.  (A dBm
    value is set to the number its text parses to.) *)
Theorem InterfaceDiagnostics_one_rx_branch (c : RpcClient) (x : InterfaceDiagnosticsRpc) :
  runCommandAndParse c "show interfaces diagnostics optics" InterfaceDiagnosticsRpc_zero
    = (x, None) ->
  InterfaceDiagnostics c =
    (flat_map InterfaceDiagnostics_of (diagnostics_Information_Diagnostics x), None) /\
  forall diag,
    In diag (diagnostics_Information_Diagnostics x) ->
    (diag_Diagnostics_NA diag = "N/A" -> InterfaceDiagnostics_of diag = []) /\
    (diag_Diagnostics_NA diag <> "N/A" ->
     exists d,
       InterfaceDiagnostics_of diag = [d] /\
       (num_positive (diag_Diagnostics_ModuleVoltage diag) = true ->
        interface_diagnostics.ModuleVoltage d =
          float64_of_num (diag_Diagnostics_ModuleVoltage diag) /\
        interface_diagnostics.RxSignalAvgOpticalPower d =
          float64_of_num (diag_Diagnostics_RxSignalAvgOpticalPower diag) /\
        interface_diagnostics.RxSignalAvgOpticalPowerDbm d =
          dbm_or_zero (diag_Diagnostics_RxSignalAvgOpticalPowerDbm diag) /\
        interface_diagnostics.LaserRxOpticalPower d = float64_zero /\
        interface_diagnostics.LaserRxOpticalPowerDbm d = float64_zero) /\
       (num_positive (diag_Diagnostics_ModuleVoltage diag) = false ->
        interface_diagnostics.LaserRxOpticalPower d =
          float64_of_num (diag_Diagnostics_LaserRxOpticalPower diag) /\
        interface_diagnostics.LaserRxOpticalPowerDbm d =
          dbm_or_zero (diag_Diagnostics_LaserRxOpticalPowerDbm diag) /\
        interface_diagnostics.ModuleVoltage d = float64_zero /\
        interface_diagnostics.RxSignalAvgOpticalPower d = float64_zero /\
        interface_diagnostics.RxSignalAvgOpticalPowerDbm d = float64_zero)).
Proof.
  intros Hrun. split; [apply InterfaceDiagnostics_records; exact Hrun|].
  intros diag _. unfold InterfaceDiagnostics_of. split.
  - intros Hna. now rewrite Hna.
  - intros Hna. apply String.eqb_neq in Hna. rewrite Hna.
    exists (InterfaceDiagnostics_entry diag). split; [reflexivity|].
    pose proof (InterfaceDiagnostics_entry_fields diag) as [_ [_ [Hpos Hneg]]].
    split; assumption.
Qed.

(** C7.  For an entry that is not skipped, a dBm text that [ParseFloat]
    refuses leaves its output field at the zero value; the record is
    returned all the same and the error of [InterfaceDiagnostics] is nil. *)
Theorem InterfaceDiagnostics_dbm_parse_failure (c : RpcClient)
    (x : InterfaceDiagnosticsRpc) :
  runCommandAndParse c "show interfaces diagnostics optics" InterfaceDiagnosticsRpc_zero
    = (x, None) ->
  snd (InterfaceDiagnostics c) = None /\
  forall diag,
    In diag (diagnostics_Information_Diagnostics x) ->
    diag_Diagnostics_NA diag <> "N/A" ->
    let d := InterfaceDiagnostics_entry diag in
    In d (fst (InterfaceDiagnostics c)) /\
    (forall e, snd (ParseFloat (diag_Diagnostics_LaserOutputPowerDbm diag)) = Some e ->
               interface_diagnostics.LaserOutputPowerDbm d = float64_zero) /\
    (forall e, snd (ParseFloat (diag_Diagnostics_RxSignalAvgOpticalPowerDbm diag)) = Some e ->
               interface_diagnostics.RxSignalAvgOpticalPowerDbm d = float64_zero) /\
    (forall e, snd (ParseFloat (diag_Diagnostics_LaserRxOpticalPowerDbm diag)) = Some e ->
               interface_diagnostics.LaserRxOpticalPowerDbm d = float64_zero).
Proof.
  intros Hrun. rewrite (InterfaceDiagnostics_records c x Hrun). split; [reflexivity|].
  intros diag Hdiag Hna d. split.
  - simpl. apply in_flat_map. exists diag. split; [exact Hdiag|].
    unfold InterfaceDiagnostics_of. apply String.eqb_neq in Hna. rewrite Hna. now left.
  - pose proof (InterfaceDiagnostics_entry_fields diag) as [_ [Hout [Hpos Hneg]]].
    fold d in Hout, Hpos, Hneg. unfold dbm_or_zero in *.
    split; [|split].
    + intros e He. rewrite Hout.
      destruct (ParseFloat (diag_Diagnostics_LaserOutputPowerDbm diag)) as [f [e'|]];
        [reflexivity|discriminate].
    + intros e He.
      destruct (num_positive (diag_Diagnostics_ModuleVoltage diag)).
      * destruct (Hpos eq_refl) as [_ [_ [Hdbm _]]]. rewrite Hdbm.
        destruct (ParseFloat (diag_Diagnostics_RxSignalAvgOpticalPowerDbm diag))
          as [f [e'|]]; [reflexivity|discriminate].
      * now destruct (Hneg eq_refl) as [_ [_ [_ [_ Hdbm]]]].
    + intros e He.
      destruct (num_positive (diag_Diagnostics_ModuleVoltage diag)).
      * now destruct (Hpos eq_refl) as [_ [_ [_ [_ Hdbm]]]].
      * destruct (Hneg eq_refl) as [_ [Hdbm _]]. rewrite Hdbm.
        destruct (ParseFloat (diag_Diagnostics_LaserRxOpticalPowerDbm diag))
          as [f [e'|]]; [reflexivity|discriminate].
Qed.

(** *** Environment items *)

Lemma EnvironmentItems_list_fold (items : list EnvironmentEntry) :
  EnvironmentItems_list items = fold_left EnvironmentItems_insert items ∅.
Proof. reflexivity. Qed.

(** Entries without a reading for [name] leave the value at [name]. *)
Lemma EnvironmentItems_insert_others (name : string) (later : list EnvironmentEntry)
    (m : gmap string float64) :
  (forall item, In item later -> item_Name item = name -> item_Temperature item = None) ->
  fold_left EnvironmentItems_insert later m !! name = m !! name.
Proof.
  revert m. induction later as [|item later IH]; intros m Hlater; [reflexivity|].
  cbn [fold_left]. rewrite IH.
  - unfold EnvironmentItems_insert.
    destruct (item_Temperature item) as [value|] eqn:Htemp; [|reflexivity].
    apply lookup_insert_ne. intros Hname.
    rewrite (Hlater item) in Htemp; [discriminate|now left|exact Hname].
  - intros item' Hin. apply Hlater. now right.
Qed.

Lemma EnvironmentItems_list_last (pre post : list EnvironmentEntry)
    (item : EnvironmentEntry) (value : num) :
  item_Temperature item = Some value ->
  last_reading item post ->
  EnvironmentItems_list (pre ++ item :: post) !! item_Name item =
  Some (float64_of_num value).
Proof.
  intros Htemp Hlast. rewrite EnvironmentItems_list_fold, fold_left_app.
  cbn [fold_left]. rewrite EnvironmentItems_insert_others by exact Hlast.
  unfold EnvironmentItems_insert. rewrite Htemp. apply lookup_insert_eq.
Qed.

Lemma EnvironmentItems_list_origin (items : list EnvironmentEntry)
    (name : string) (v : float64) :
  EnvironmentItems_list items !! name = Some v ->
  exists pre item post value,
    items = pre ++ item :: post /\ item_Name item = name /\
    item_Temperature item = Some value /\ v = float64_of_num value /\
    last_reading item post.
Proof.
  rewrite EnvironmentItems_list_fold.
  induction items as [|item items IH] using rev_ind; [intros H; discriminate H|].
  rewrite fold_left_app. cbn [fold_left]. unfold EnvironmentItems_insert at 1.
  destruct (item_Temperature item) as [value|] eqn:Htemp.
  - destruct (decide (item_Name item = name)) as [Hname|Hname].
    + rewrite Hname, lookup_insert_eq. intros Hv. inversion Hv; subst v.
      exists items, item, [], value. repeat split; try assumption.
      intros item' [].
    + rewrite lookup_insert_ne by exact Hname. intros Hv.
      destruct (IH Hv) as (pre & item0 & post & value0 & Hitems & Hn & Ht & Hval & Hlast).
      exists pre, item0, (post ++ [item]), value0. repeat split; try assumption.
      * rewrite Hitems, <- app_assoc. reflexivity.
      * intros item' Hin Heq. apply in_app_or in Hin. destruct Hin as [Hin|[Hin|[]]].
        -- now apply Hlast.
        -- subst item'. congruence.
  - intros Hv.
    destruct (IH Hv) as (pre & item0 & post & value0 & Hitems & Hn & Ht & Hval & Hlast).
    exists pre, item0, (post ++ [item]), value0. repeat split; try assumption.
    + rewrite Hitems, <- app_assoc. reflexivity.
    + intros item' Hin Heq. apply in_app_or in Hin. destruct Hin as [Hin|[Hin|[]]].
      * now apply Hlast.
      * now subst item'.
Qed.

Lemma list_fmap_is_map {A B : Type} (f : A -> B) (l : list A) : f <$> l = map f l.
Proof. induction l as [|a l IH]; [reflexivity|]. simpl. now rewrite <- IH. Qed.

Lemma EnvironmentItems_records (c : RpcClient) (x : EnvironmentRpc) :
  runCommandAndParse c "show chassis environment" EnvironmentRpc_zero = (x, None) ->
  EnvironmentItems c =
  (map EnvironmentItem_of
     (map_range (EnvironmentItems_list (environment_Information_Items x))), None).
Proof.
  intros Hrun. unfold EnvironmentItems. rewrite Hrun. f_equal.
  rewrite <- (app_nil_l (map _ _)). rewrite <- fold_left_append_map.
  apply fold_left_ext_in. intros items [name value] _. reflexivity.
Qed.

Lemma map_range_lookup (m : gmap string float64) (name : string) (v : float64) :
  In (name, v) (map_range m) <-> m !! name = Some v.
Proof.
  rewrite <- list_elem_of_In, map_range_perm. apply elem_of_map_to_list.
Qed.

Lemma map_range_names_NoDup (m : gmap string float64) :
  List.NoDup (map fst (map_range m)).
Proof.
  apply NoDup_ListNoDup. rewrite <- list_fmap_is_map, map_range_perm.
  apply NoDup_fst_map_to_list.
Qed.

(** C4.  [EnvironmentItems] returns no error, and its records have
    pairwise distinct names.  An entry with a temperature reading that no
    later entry of the same name overwrites gives the one record of that
    name, with the temperature of that entry; every record comes from
    such an entry, so an entry without a reading gives none. *)
Theorem EnvironmentItems_last_write_wins (c : RpcClient) (x : EnvironmentRpc) :
  runCommandAndParse c "show chassis environment" EnvironmentRpc_zero = (x, None) ->
  exists items,
    EnvironmentItems c = (items, None) /\
    List.NoDup (map environment.Name items) /\
    (forall pre item post value,
       environment_Information_Items x = pre ++ item :: post ->
       item_Temperature item = Some value ->
       last_reading item post ->
       let i := {| environment.Name := item_Name item;
                   environment.Temperature := float64_of_num value |} in
       In i items /\
       (forall i', In i' items -> environment.Name i' = item_Name item -> i' = i)) /\
    (forall i,
       In i items ->
       exists pre item post value,
         environment_Information_Items x = pre ++ item :: post /\
         item_Name item = environment.Name i /\
         item_Temperature item = Some value /\
         environment.Temperature i = float64_of_num value /\
         last_reading item post).
Proof.
  intros Hrun. eexists. split; [apply EnvironmentItems_records; exact Hrun|].
  set (list := EnvironmentItems_list (environment_Information_Items x)).
  assert (Hin : forall i, In i (map EnvironmentItem_of (map_range list)) <->
                          list !! environment.Name i = Some (environment.Temperature i)).
  { intros i. rewrite in_map_iff. split.
    - intros [[name v] [Hi Hnv]]. subst i. simpl. now apply map_range_lookup.
    - intros Hl. exists (environment.Name i, environment.Temperature i).
      split; [now destruct i|now apply map_range_lookup]. }
  split; [|split].
  - rewrite map_map. simpl. apply map_range_names_NoDup.
  - intros pre item post value Hitems Htemp Hlast i.
    assert (Hl : list !! item_Name item = Some (float64_of_num value)).
    { unfold list. rewrite Hitems. now apply EnvironmentItems_list_last. }
    split; [apply Hin; exact Hl|].
    intros i' Hi' Hname. apply Hin in Hi'. rewrite Hname, Hl in Hi'.
    inversion Hi' as [Hv]. destruct i' as [n t]. simpl in *. subst. reflexivity.
  - intros i Hi. apply Hin in Hi.
    destruct (EnvironmentItems_list_origin _ _ _ Hi)
      as (pre & item & post & value & Hitems & Hn & Ht & Hval & Hlast).
    exists pre, item, post, value. repeat split; assumption.
Qed.

(** *** Errors *)

Lemma runCommandAndParse_fails {A : Type} {X : XmlUnmarshal A}
    (c : RpcClient) (cmd : string) (obj : A) (e : error) :
  snd (runCommandAndParse c cmd obj) = Some e ->
  exists x, runCommandAndParse c cmd obj = (x, Some e).
Proof.
  destruct (runCommandAndParse c cmd obj) as [x err]. simpl. intros ->. now exists x.
Qed.

(** C5.  An error of [runCommandAndParse] is an error of the channel or
    an error of the decoder on the reply.  When the command of a domain
    operation fails in either way, the operation returns that error and
    no record: the nil slice or the nil pointer, also for the second
    command of [AlarmCounter] after the first succeeded.  When the
    datasource returns an error, [Collect] returns it and the channel is
    as it was: no sample is sent, whatever the datasource returned beside
    the error. *)
Theorem errors_abort_without_records (c : RpcClient) (e : error) :
  (forall (A : Type) (X : XmlUnmarshal A) (cmd : string) (obj : A),
     snd (runCommandAndParse c cmd obj) = Some e <->
     (snd (connector.RunCommand (conn c) (cmd +:+ " | display xml")) = Some e \/
      exists b, connector.RunCommand (conn c) (cmd +:+ " | display xml") = (b, None) /\
                snd (Unmarshal b obj) = Some e)) /\
  (snd (runCommandAndParse c "show system alarms" AlarmRpc_zero) = Some e ->
   AlarmCounter c = (None, Some e)) /\
  (snd (runCommandAndParse c "show system alarms" AlarmRpc_zero) = None ->
   snd (runCommandAndParse c "show chassis alarms" AlarmRpc_zero) = Some e ->
   AlarmCounter c = (None, Some e)) /\
  (snd (runCommandAndParse c "show interfaces statistics detail" InterfaceRpc_zero) = Some e ->
   InterfaceStats c = ([], Some e)) /\
  (snd (runCommandAndParse c "show bgp summary" BgpRpc_zero) = Some e ->
   BgpSessions c = ([], Some e)) /\
  (snd (runCommandAndParse c "show ospf3 overview" Ospf3Rpc_zero) = Some e ->
   OspfAreas c = ([], Some e)) /\
  (snd (runCommandAndParse c "show isis adjacency" IsisRpc_zero) = Some e ->
   IsisAdjancies c = (None, Some e)) /\
  (snd (runCommandAndParse c "show route summary" RouteRpc_zero) = Some e ->
   RoutingTables c = ([], Some e)) /\
  (snd (runCommandAndParse c "show chassis routing-engine" RoutingEngineRpc_zero) = Some e ->
   RouteEngineStats c = (None, Some e)) /\
  (snd (runCommandAndParse c "show chassis environment" EnvironmentRpc_zero) = Some e ->
   EnvironmentItems c = ([], Some e)) /\
  (snd (runCommandAndParse c "show interfaces diagnostics optics"
          InterfaceDiagnosticsRpc_zero) = Some e ->
   InterfaceDiagnostics c = ([], Some e)) /\
  (forall (D : Type) (DS : interfaces.InterfaceStatsDatasource D) (datasource : D)
          (stats : list interfaces.InterfaceStats) (ch : list Metric)
          (labelValues : list string),
     interfaces.datasource_InterfaceStats datasource = (stats, Some e) ->
     interfaces.Collect datasource ch labelValues = (ch, Returns (Some e))).
Proof.
  split; [intros A X cmd obj; apply runCommandAndParse_error|].
  split; [|split].
  - intros H. apply runCommandAndParse_fails in H. destruct H as [x H].
    unfold AlarmCounter. cbn [AlarmCounter_cmds]. now rewrite H.
  - intros H1 H2. apply runCommandAndParse_fails in H2. destruct H2 as [x2 H2].
    unfold AlarmCounter. cbn [AlarmCounter_cmds].
    destruct (runCommandAndParse c "show system alarms" AlarmRpc_zero) as [x1 err1].
    simpl in H1. subst err1.
    destruct (fold_left (AlarmCounter_detail c) (alarm_Information_Details x1) (0%Z, 0%Z))
      as [red yellow].
    now rewrite H2.
  - repeat split.
    1-8: intros H; apply runCommandAndParse_fails in H; destruct H as [x H].
    + unfold InterfaceStats. now rewrite H.
    + unfold BgpSessions. now rewrite H.
    + unfold OspfAreas. now rewrite H.
    + unfold IsisAdjancies. cbv zeta. now rewrite H.
    + unfold RoutingTables. now rewrite H.
    + unfold RouteEngineStats. now rewrite H.
    + unfold EnvironmentItems. now rewrite H.
    + unfold InterfaceDiagnostics. now rewrite H.
    + intros D DS datasource stats ch labelValues H.
      unfold interfaces.Collect. now rewrite H.
Qed.

End Properties.

(** ** Further properties of the client and of the collector *)

Section MoreProperties.
Import prometheus rpc.
Context {G : GoTypes} {N : XmlNum} {SC : Strconv} {RE : RegexpPkg} {MR : MapRange}
        {U : Utf8}.
Context {XAlarm : XmlUnmarshal AlarmRpc} {XInterface : XmlUnmarshal InterfaceRpc}
        {XBgp : XmlUnmarshal BgpRpc} {XOspf3 : XmlUnmarshal Ospf3Rpc}
        {XIsis : XmlUnmarshal IsisRpc} {XRoute : XmlUnmarshal RouteRpc}
        {XRoutingEngine : XmlUnmarshal RoutingEngineRpc}
        {XEnvironment : XmlUnmarshal EnvironmentRpc}
        {XDiagnostics : XmlUnmarshal InterfaceDiagnosticsRpc}.

(** *** BGP sessions and OSPF areas *)

Lemma filter_map_length {A B : Type} (f : A -> B) (p : B -> bool) (l : list A) :
  length (List.filter p (map f l)) = length (List.filter (fun a => p (f a)) l).
Proof.
  induction l as [|a l IH]; [reflexivity|]. cbn [map List.filter].
  destruct (p (f a)); cbn [length]; now rewrite IH.
Qed.

(** X1.  [BgpSessions] returns one session per peer of the envelope, in
    the order of the envelope; the session of a peer has its address and
    is up if and only if the state of the peer is "Established", so
    there are as many sessions up as peers established. *)
Theorem BgpSessions_per_peer (c : RpcClient) (x : BgpRpc) :
  runCommandAndParse c "show bgp summary" BgpRpc_zero = (x, None) ->
  exists sessions,
    BgpSessions c = (sessions, None) /\
    sessions = map BgpSession_of (bgp_Information_Peers x) /\
    length sessions = length (bgp_Information_Peers x) /\
    (forall (i : nat) (peer : BgpPeer),
       nth_error (bgp_Information_Peers x) i = Some peer ->
       exists s,
         nth_error sessions i = Some s /\
         bgp.Ip s = peer_Ip peer /\
         bgp.Asn s = peer_Asn peer /\
         (bgp.Up s = true <-> peer_State peer = "Established")) /\
    length (List.filter bgp.Up sessions) =
      length (List.filter (fun peer => String.eqb (peer_State peer) "Established")
                (bgp_Information_Peers x)).
Proof.
  intros Hrun. exists (map BgpSession_of (bgp_Information_Peers x)).
  split; [|split; [reflexivity|split; [apply length_map|split]]].
  - unfold BgpSessions. rewrite Hrun. f_equal.
    rewrite <- (app_nil_l (map _ _)). rewrite <- fold_left_append_map. reflexivity.
  - intros i peer Hi. exists (BgpSession_of peer).
    split; [now apply map_nth_error|]. split; [reflexivity|]. split; [reflexivity|].
    simpl. apply String.eqb_eq.
  - apply filter_map_length.
Qed.

(** X2.  [OspfAreas] returns one record per area of the envelope, in the
    order of the envelope, with the name of the area and, as neighbors,
    the conversion of its count of neighbors up. *)
Theorem OspfAreas_per_area (c : RpcClient) (x : Ospf3Rpc) :
  runCommandAndParse c "show ospf3 overview" Ospf3Rpc_zero = (x, None) ->
  exists areas,
    OspfAreas c = (areas, None) /\
    length areas = length (ospf3_Information_Overview_Areas x) /\
    map ospf.Name areas = map area_Name (ospf3_Information_Overview_Areas x) /\
    map ospf.Neighbors areas =
      map (fun area => float64_of_num (area_Neighbors_NeighborsUp area))
          (ospf3_Information_Overview_Areas x).
Proof.
  intros Hrun. exists (map OspfArea_of (ospf3_Information_Overview_Areas x)).
  split; [|split; [apply length_map|split; now rewrite map_map]].
  unfold OspfAreas. rewrite Hrun. f_equal.
  rewrite <- (app_nil_l (map _ _)). rewrite <- fold_left_append_map. reflexivity.
Qed.

(** *** Nil results *)

(** X3.  The three operations that return a pointer return a nil record
    exactly when they return an error: never both nil, never both set. *)
Theorem record_nil_iff_error (c : RpcClient) :
  (fst (AlarmCounter c) = None <-> snd (AlarmCounter c) <> None) /\
  (fst (IsisAdjancies c) = None <-> snd (IsisAdjancies c) <> None) /\
  (fst (RouteEngineStats c) = None <-> snd (RouteEngineStats c) <> None).
Proof.
  split; [|split].
  - unfold AlarmCounter. cbn [AlarmCounter_cmds].
    destruct (runCommandAndParse c "show system alarms" AlarmRpc_zero) as [a1 [e1|]];
      [simpl; split; [discriminate|reflexivity]|].
    destruct (fold_left (AlarmCounter_detail c) (alarm_Information_Details a1) (0%Z, 0%Z))
      as [red yellow].
    destruct (runCommandAndParse c "show chassis alarms" AlarmRpc_zero) as [a2 [e2|]];
      [simpl; split; [discriminate|reflexivity]|].
    destruct (fold_left (AlarmCounter_detail c) (alarm_Information_Details a2) (red, yellow))
      as [red' yellow'].
    simpl. split; [discriminate|]. intros H. now contradiction H.
  - unfold IsisAdjancies. cbv zeta.
    destruct (runCommandAndParse c "show isis adjacency" IsisRpc_zero) as [x [e|]];
      [simpl; split; [discriminate|reflexivity]|].
    destruct (fold_left IsisAdjancies_adjacency (isis_Information_Adjacencies x) (0%Z, 0%Z))
      as [up total].
    simpl. split; [discriminate|]. intros H. now contradiction H.
  - unfold RouteEngineStats.
    destruct (runCommandAndParse c "show chassis routing-engine" RoutingEngineRpc_zero)
      as [x [e|]]; simpl.
    + split; [discriminate|reflexivity].
    + split; [discriminate|]. intros H. now contradiction H.
Qed.

(** *** The records of the interfaces and their samples *)

Lemma InterfaceStats_log_not_physical (phy : PhyInterface) (logs : list LogInterface) :
  List.filter interfaces.IsPhysical (map (InterfaceStats_log phy) logs) = [].
Proof. induction logs as [|log logs IH]; [reflexivity|exact IH]. Qed.

Lemma InterfaceStats_of_length (phys : list PhyInterface) :
  length (flat_map InterfaceStats_of phys) = (length phys + logical_count phys)%nat.
Proof.
  unfold logical_count. induction phys as [|phy phys IH]; [reflexivity|].
  cbn [flat_map map]. unfold list_sum in *. cbn [fold_right].
  rewrite List.length_app, IH.
  unfold InterfaceStats_of. cbn [length]. rewrite length_map. lia.
Qed.

Lemma InterfaceStats_of_physical (phys : list PhyInterface) :
  physical_records (flat_map InterfaceStats_of phys) = length phys.
Proof.
  unfold physical_records. induction phys as [|phy phys IH]; [reflexivity|].
  cbn [flat_map]. rewrite List.filter_app, List.length_app, IH.
  unfold InterfaceStats_of. cbn [List.filter InterfaceStats_phy interfaces.IsPhysical].
  rewrite InterfaceStats_log_not_physical. reflexivity.
Qed.

Lemma InterfaceStats_of_rows (phys : list PhyInterface) :
  map (fun s => (interfaces.Name s, interfaces.IsPhysical s, interfaces.Mac s))
      (flat_map InterfaceStats_of phys) =
  interface_rows phys.
Proof.
  unfold interface_rows. induction phys as [|phy phys IH]; [reflexivity|].
  cbn [flat_map]. rewrite map_app, IH. f_equal.
  unfold InterfaceStats_of. cbn [map]. now rewrite map_map.
Qed.

(** X4.  [InterfaceStats] returns, in the order of the envelope, the
    record of each physical entry followed by the records of its logical
    interfaces.  Position by position the records have the name of their
    entry or logical interface, the physical flag set for the record of a
    physical entry and clear for the record of a logical interface, and
    the hardware address of the physical entry; so a record is physical
    exactly when it is the record of a physical entry, and there are as
    many physical records as physical entries and as many others as
    logical interfaces. *)
Theorem InterfaceStats_records_in_order (c : RpcClient) (x : InterfaceRpc) :
  runCommandAndParse c "show interfaces statistics detail" InterfaceRpc_zero = (x, None) ->
  InterfaceStats c = (flat_map InterfaceStats_of (interface_Information_Interfaces x), None) /\
  map (fun s => (interfaces.Name s, interfaces.IsPhysical s, interfaces.Mac s))
      (fst (InterfaceStats c)) =
    interface_rows (interface_Information_Interfaces x) /\
  (forall s, In s (fst (InterfaceStats c)) ->
     (interfaces.IsPhysical s = true <->
      exists phy, In phy (interface_Information_Interfaces x) /\ s = InterfaceStats_phy phy) /\
     (interfaces.IsPhysical s = false <->
      exists phy log,
        In phy (interface_Information_Interfaces x) /\
        In log (phy_LogicalInterfaces phy) /\ s = InterfaceStats_log phy log)) /\
  length (fst (InterfaceStats c)) =
    (length (interface_Information_Interfaces x) +
     logical_count (interface_Information_Interfaces x))%nat /\
  physical_records (fst (InterfaceStats c)) = length (interface_Information_Interfaces x) /\
  logical_records (fst (InterfaceStats c)) =
    logical_count (interface_Information_Interfaces x) /\
  map interfaces.Name (fst (InterfaceStats c)) =
    interface_names (interface_Information_Interfaces x).
Proof.
  intros Hrun. rewrite (InterfaceStats_records c x Hrun). simpl fst.
  generalize (interface_Information_Interfaces x) as phys. intros phys.
  pose proof (InterfaceStats_of_length phys) as Hlength.
  pose proof (InterfaceStats_of_physical phys) as Hphysical.
  split; [reflexivity|]. split; [apply InterfaceStats_of_rows|].
  split; [|split; [exact Hlength|split; [exact Hphysical|split]]].
  - intros s Hs. apply in_flat_map in Hs. destruct Hs as [phy [Hphy Hs]].
    destruct Hs as [Hs|Hs].
    + subst s. split; split.
      * intros _. exists phy. now split.
      * reflexivity.
      * discriminate.
      * intros (phy' & log & _ & _ & Heq).
        apply (f_equal interfaces.IsPhysical) in Heq. discriminate Heq.
    + apply in_map_iff in Hs. destruct Hs as [log [Hs Hlog]]. subst s. split; split.
      * discriminate.
      * intros (phy' & _ & Heq).
        apply (f_equal interfaces.IsPhysical) in Heq. discriminate Heq.
      * intros _. exists phy, log. now repeat split.
      * reflexivity.
  - unfold logical_records.
    pose proof (List.filter_length interfaces.IsPhysical (flat_map InterfaceStats_of phys))
      as Hsplit.
    unfold physical_records in Hphysical. lia.
  - clear Hlength Hphysical. unfold interface_names.
    induction phys as [|phy phys IH]; [reflexivity|].
    cbn [flat_map]. rewrite map_app, IH. f_equal.
    unfold InterfaceStats_of. cbn [map]. now rewrite map_map.
Qed.

Lemma samples_of_length (labelValues : list string) (s : interfaces.InterfaceStats) :
  length (samples_of labelValues s) = if interfaces.IsPhysical s then 9%nat else 2%nat.
Proof. unfold samples_of. now destruct (interfaces.IsPhysical s). Qed.

Lemma samples_of_gauges (labelValues : list string) (s : interfaces.InterfaceStats)
    (m : Metric) :
  In m (samples_of labelValues s) ->
  valueType m = GaugeValue /\ prometheus.labelValues m = labels_of labelValues s.
Proof.
  unfold samples_of. intros Hm. apply in_app_or in Hm. destruct Hm as [Hm|Hm].
  - simpl in Hm. destruct Hm as [Hm|[Hm|[]]]; subst m; split; reflexivity.
  - destruct (interfaces.IsPhysical s); [|destruct Hm]. simpl in Hm.
    destruct Hm as [Hm|[Hm|[Hm|[Hm|[Hm|[Hm|[Hm|[]]]]]]]]; subst m; split; reflexivity.
Qed.

Lemma samples_of_total (stats : list interfaces.InterfaceStats)
    (labelValues : list string) :
  length (flat_map (samples_of labelValues) stats) =
  (9 * physical_records stats + 2 * logical_records stats)%nat.
Proof.
  unfold physical_records, logical_records.
  induction stats as [|s stats IH]; [reflexivity|].
  cbn [flat_map List.filter]. rewrite List.length_app, samples_of_length.
  destruct (interfaces.IsPhysical s); cbn [negb length]; lia.
Qed.

(** Whether the loop of [Collect] returns or panics, it has appended
    samples of records whose label values fit. *)
Lemma Collect_stats_sent (stats : list interfaces.InterfaceStats)
    (ch : list Metric) (labelValues : list string) :
  exists sent,
    fst (interfaces.Collect_stats stats ch labelValues) = ch ++ sent /\
    (forall m, In m sent ->
       exists s, In s stats /\ labels_fit (labels_of labelValues s) = true /\
                 In m (samples_of labelValues s)) /\
    (snd (interfaces.Collect_stats stats ch labelValues) = Panics ->
     exists s, In s stats /\ labels_fit (labels_of labelValues s) = false).
Proof.
  revert ch. induction stats as [|s stats IH]; intros ch.
  - exists []. simpl. rewrite app_nil_r. split; [reflexivity|].
    split; [intros m []|discriminate].
  - cbn [interfaces.Collect_stats].
    destruct (labels_fit (labels_of labelValues s)) eqn:Hfit.
    + rewrite collectForInterface_fit by exact Hfit.
      destruct (IH (ch ++ samples_of labelValues s)) as [sent [Hsent [Hall Hpanic]]].
      exists (samples_of labelValues s ++ sent). rewrite Hsent, <- app_assoc.
      split; [reflexivity|]. split.
      * intros m Hm. apply in_app_or in Hm. destruct Hm as [Hm|Hm].
        -- exists s. split; [now left|]. now split.
        -- destruct (Hall m Hm) as [s' [Hs' Hrest]]. exists s'. split; [now right|exact Hrest].
      * intros Hp. destruct (Hpanic Hp) as [s' [Hs' Hunfit]].
        exists s'. split; [now right|exact Hunfit].
    + rewrite collectForInterface_unfit by exact Hfit.
      exists []. simpl. rewrite app_nil_r. split; [reflexivity|].
      split; [intros m []|]. intros _. exists s. split; [now left|exact Hfit].
Qed.

(** X5.  [Collect] only appends to the channel, whether it returns or
    panics.  On an error of the datasource it returns that error and
    sends nothing.  Otherwise, called with one inbound label value and
    with label values that are valid UTF-8, it returns nil having sent
    nine samples per physical record and two per logical record; and it
    panics only when the label values of some record do not fit the four
    label names of the descriptors.  Every sample it sends is a gauge
    with four valid label values: the inbound one followed by the name,
    the description and the hardware address of one of the records. *)
Theorem Collect_appends_gauges {D : Type} {DS : interfaces.InterfaceStatsDatasource D}
    (datasource : D) (ch : list Metric) (labelValues : list string) :
  exists sent,
    fst (interfaces.Collect datasource ch labelValues) = ch ++ sent /\
    (forall e, snd (interfaces.datasource_InterfaceStats datasource) = Some e ->
       sent = [] /\
       snd (interfaces.Collect datasource ch labelValues) = Returns (Some e)) /\
    (snd (interfaces.datasource_InterfaceStats datasource) = None ->
     length labelValues = 1%nat ->
     (forall s, In s (fst (interfaces.datasource_InterfaceStats datasource)) ->
                forallb ValidString (labels_of labelValues s) = true) ->
     snd (interfaces.Collect datasource ch labelValues) = Returns None /\
     length sent =
       (9 * physical_records (fst (interfaces.datasource_InterfaceStats datasource)) +
        2 * logical_records (fst (interfaces.datasource_InterfaceStats datasource)))%nat) /\
    (snd (interfaces.Collect datasource ch labelValues) = Panics ->
     snd (interfaces.datasource_InterfaceStats datasource) = None /\
     exists s, In s (fst (interfaces.datasource_InterfaceStats datasource)) /\
               (length labelValues <> 1%nat \/
                forallb ValidString (labels_of labelValues s) = false)) /\
    (forall m, In m sent ->
       valueType m = GaugeValue /\
       length (prometheus.labelValues m) = 4%nat /\
       forallb ValidString (prometheus.labelValues m) = true /\
       exists s, In s (fst (interfaces.datasource_InterfaceStats datasource)) /\
                 prometheus.labelValues m = labels_of labelValues s).
Proof.
  unfold interfaces.Collect.
  destruct (interfaces.datasource_InterfaceStats datasource) as [stats [e|]] eqn:Hds.
  - exists []. simpl. rewrite app_nil_r. split; [reflexivity|].
    split; [intros e' He'; inversion He'; now split|].
    split; [discriminate|]. split; [discriminate|]. intros m [].
  - destruct (Collect_stats_sent stats ch labelValues) as [sent [Hsent [Hall Hpanic]]].
    exists sent. simpl fst in *. simpl snd in *.
    split; [|split; [discriminate|split; [|split]]].
    + destruct (interfaces.Collect_stats stats ch labelValues) as [ch' [u|]]; exact Hsent.
    + intros _ Hlen Hvalid.
      assert (Hfit : forall s, In s stats -> labels_fit (labels_of labelValues s) = true).
      { intros s Hs. apply labels_fit_iff. split; [exact Hlen|now apply Hvalid]. }
      rewrite (Collect_stats_fit stats ch labelValues Hfit) in *. simpl in *.
      split; [reflexivity|]. apply app_inv_head in Hsent. rewrite <- Hsent.
      apply samples_of_total.
    + intros Hp. split; [reflexivity|].
      destruct (interfaces.Collect_stats stats ch labelValues) as [ch' [u|]];
        [discriminate Hp|].
      destruct (Hpanic eq_refl) as [s [Hs Hunfit]]. exists s. split; [exact Hs|].
      destruct (Nat.eq_dec (length labelValues) 1%nat) as [Hlen|Hlen]; [right|now left].
      destruct (forallb ValidString (labels_of labelValues s)) eqn:Hvalid; [|reflexivity].
      rewrite (proj2 (labels_fit_iff labelValues s) (conj Hlen Hvalid)) in Hunfit.
      discriminate Hunfit.
    + intros m Hm. destruct (Hall m Hm) as [s [Hs [Hfit Hsample]]].
      apply samples_of_gauges in Hsample. destruct Hsample as [Hgauge Hlabels].
      split; [exact Hgauge|]. rewrite Hlabels.
      unfold labels_fit in Hfit. apply andb_true_iff in Hfit. destruct Hfit as [Hfour Hvalid].
      split; [now apply Nat.eqb_eq|]. split; [exact Hvalid|]. exists s. now split.
Qed.

(** X6.  [Describe] only appends: nine descriptors with pairwise
    distinct names, each with the prefix of the package and the label
    names target, name, description and mac; and [collectForInterface]
    sends no sample whose descriptor [Describe] does not send. *)
Theorem Describe_announces_samples :
  (forall ch, interfaces.Describe ch = ch ++ interfaces.Describe []) /\
  length (interfaces.Describe []) = 9%nat /\
  List.NoDup (map fqName (interfaces.Describe [])) /\
  (forall d, In d (interfaces.Describe []) ->
     variableLabels d = ["target"; "name"; "description"; "mac"] /\
     String.prefix interfaces.prefix (fqName d) = true) /\
  (forall (s : interfaces.InterfaceStats) (labelValues : list string) (m : Metric),
     In m (fst (interfaces.collectForInterface s [] labelValues)) ->
     In (desc m) (interfaces.Describe [])).
Proof.
  split; [reflexivity|]. split; [reflexivity|]. split; [|split].
  - cbv. repeat (constructor; [simpl; intuition discriminate|]). constructor.
  - intros d Hd. simpl in Hd.
    repeat (destruct Hd as [Hd|Hd]; [subst d; split; reflexivity|]). destruct Hd.
  - intros s labelValues m Hm. rewrite collectForInterface_sent in Hm. cbn [app] in Hm.
    destruct (labels_fit (labels_of labelValues s)); [|destruct Hm].
    unfold samples_of in Hm. apply in_app_or in Hm. destruct Hm as [Hm|Hm].
    + simpl in Hm. destruct Hm as [Hm|[Hm|[]]]; subst m; simpl; auto 10.
    + destruct (interfaces.IsPhysical s); [|destruct Hm]. simpl in Hm.
      destruct Hm as [Hm|[Hm|[Hm|[Hm|[Hm|[Hm|[Hm|[]]]]]]]]; subst m; simpl; auto 12.
Qed.

(** The records of an entry whose strings are valid have valid label
    values. *)
Lemma valid_entry_labels (labelValues : list string) (phy : PhyInterface)
    (s : interfaces.InterfaceStats) :
  forallb ValidString labelValues = true ->
  valid_entry phy = true ->
  In s (InterfaceStats_of phy) ->
  forallb ValidString (labels_of labelValues s) = true.
Proof.
  intros Hlabels Hentry Hs. unfold valid_entry in Hentry.
  repeat (apply andb_true_iff in Hentry; destruct Hentry as [Hentry ?]).
  unfold labels_of. rewrite forallb_app, Hlabels. cbn [andb forallb].
  destruct Hs as [Hs|Hs].
  - subst s. cbn. rewrite Hentry, H1, H0. reflexivity.
  - apply in_map_iff in Hs. destruct Hs as [log [Hs Hlog]]. subst s. cbn.
    apply (proj1 (forallb_forall _ _) H log) in Hlog.
    apply andb_true_iff in Hlog. destruct Hlog as [Hname Hdesc].
    rewrite Hname, Hdesc, H0. reflexivity.
Qed.

Lemma Collect_client_samples (c : RpcClient) (x : InterfaceRpc)
    (ch : list Metric) (labelValues : list string) :
  runCommandAndParse c "show interfaces statistics detail" InterfaceRpc_zero = (x, None) ->
  length labelValues = 1%nat ->
  forallb ValidString labelValues = true ->
  (forall phy, In phy (interface_Information_Interfaces x) -> valid_entry phy = true) ->
  interfaces.Collect c ch labelValues =
  (ch ++ flat_map (samples_of labelValues)
               (flat_map InterfaceStats_of (interface_Information_Interfaces x)),
   Returns None).
Proof.
  intros Hrun Hlen Hlabels Hentries. apply Collect_samples.
  - simpl. apply InterfaceStats_records. exact Hrun.
  - intros s Hs. apply labels_fit_iff. split; [exact Hlen|].
    apply in_flat_map in Hs. destruct Hs as [phy [Hphy Hs]].
    apply (valid_entry_labels labelValues phy s Hlabels); [now apply Hentries|exact Hs].
Qed.

(** X7.  With the client as datasource, its command answered and decoded
    into strings that are valid UTF-8, and one valid inbound label value,
    [Collect] returns nil and its channel holds, for every physical
    entry, the admin-up, up and error-status samples with the values 1 or
    0 of the comparisons of the status strings and, for every logical
    interface, the two byte-counter samples labelled with the name and
    description of the logical interface and the hardware address of its
    physical entry. *)
Theorem Collect_from_client (c : RpcClient) (x : InterfaceRpc)
    (ch : list Metric) (labelValues : list string) :
  runCommandAndParse c "show interfaces statistics detail" InterfaceRpc_zero = (x, None) ->
  length labelValues = 1%nat ->
  forallb ValidString labelValues = true ->
  (forall phy, In phy (interface_Information_Interfaces x) -> valid_entry phy = true) ->
  snd (interfaces.Collect c ch labelValues) = Returns None /\
  (forall phy,
     In phy (interface_Information_Interfaces x) ->
     let l := labelValues ++ [phy_Name phy; phy_Description phy; phy_MacAddress phy] in
     In (gauge interfaces.adminStatusDesc
           (float64_of_int (if String.eqb (phy_AdminStatus phy) "up" then 1 else 0)) l)
        (fst (interfaces.Collect c ch labelValues)) /\
     In (gauge interfaces.operStatusDesc
           (float64_of_int (if String.eqb (phy_OperStatus phy) "up" then 1 else 0)) l)
        (fst (interfaces.Collect c ch labelValues)) /\
     In (gauge interfaces.errorStatusDesc
           (float64_of_int
              (if String.eqb (phy_AdminStatus phy) (phy_OperStatus phy) then 0 else 1)) l)
        (fst (interfaces.Collect c ch labelValues))) /\
  (forall phy log,
     In phy (interface_Information_Interfaces x) ->
     In log (phy_LogicalInterfaces phy) ->
     let l := labelValues ++ [log_Name log; log_Description log; phy_MacAddress phy] in
     In (gauge interfaces.receiveBytesDesc (float64_of_num (log_Stats_InputBytes log)) l)
        (fst (interfaces.Collect c ch labelValues)) /\
     In (gauge interfaces.transmitBytesDesc (float64_of_num (log_Stats_OutputBytes log)) l)
        (fst (interfaces.Collect c ch labelValues))).
Proof.
  intros Hrun Hlen Hlabels Hentries.
  rewrite (Collect_client_samples c x ch labelValues Hrun Hlen Hlabels Hentries).
  simpl fst. simpl snd. split; [reflexivity|].
  assert (Hin : forall phy s m,
            In phy (interface_Information_Interfaces x) ->
            In s (InterfaceStats_of phy) ->
            In m (samples_of labelValues s) ->
            In m (ch ++ flat_map (samples_of labelValues)
                          (flat_map InterfaceStats_of (interface_Information_Interfaces x)))).
  { intros phy s m Hphy Hs Hm. apply in_or_app. right.
    apply in_flat_map. exists s. split; [|exact Hm].
    apply in_flat_map. exists phy. now split. }
  split.
  - intros phy Hphy l.
    assert (Hs : In (InterfaceStats_phy phy) (InterfaceStats_of phy)) by now left.
    repeat split; apply (Hin phy _ _ Hphy Hs); unfold samples_of;
      cbn [InterfaceStats_phy interfaces.IsPhysical];
      apply in_or_app; right; unfold physical_samples; cbn.
    + left. reflexivity.
    + right. left. reflexivity.
    + right. right. left. now destruct (String.eqb (phy_AdminStatus phy) (phy_OperStatus phy)).
  - intros phy log Hphy Hlog l.
    assert (Hs : In (InterfaceStats_log phy log) (InterfaceStats_of phy)).
    { right. now apply in_map. }
    split; apply (Hin phy _ _ Hphy Hs); unfold samples_of; cbn; auto.
Qed.

(** X17.  Called with no inbound label value, or with more than one,
    [Collect] panics on the first record of the datasource and leaves
    the channel as it was: the descriptors have four label names, three
    of which the record fills.  It does so only when there is a record:
    on an empty list it returns nil. *)
Theorem Collect_panics_on_label_count {D : Type}
    {DS : interfaces.InterfaceStatsDatasource D} (datasource : D)
    (stats : list interfaces.InterfaceStats) (ch : list Metric) (labelValues : list string) :
  interfaces.datasource_InterfaceStats datasource = (stats, None) ->
  length labelValues <> 1%nat ->
  (stats <> [] -> interfaces.Collect datasource ch labelValues = (ch, Panics)) /\
  (stats = [] -> interfaces.Collect datasource ch labelValues = (ch, Returns None)) /\
  (forall s ch', interfaces.collectForInterface s ch' labelValues = (ch', Panics)).
Proof.
  intros Hds Hlen.
  assert (Hunfit : forall s, labels_fit (labels_of labelValues s) = false).
  { intros s. destruct (labels_fit (labels_of labelValues s)) eqn:Hfit; [|reflexivity].
    apply labels_fit_iff in Hfit. destruct Hfit as [Hone _]. now contradiction Hlen. }
  unfold interfaces.Collect. rewrite Hds. split; [|split].
  - destruct stats as [|s stats]; [intros H; now contradiction H|]. intros _.
    cbn [interfaces.Collect_stats]. now rewrite collectForInterface_unfit by apply Hunfit.
  - intros Hnil. subst stats. reflexivity.
  - intros s ch'. now apply collectForInterface_unfit.
Qed.

(** *** The tallies of the alarms *)

Lemma count_alarms_le_class (c : RpcClient) (class : string) (l : list AlarmDetails) :
  (count_alarms c class l <= count_class class l)%Z.
Proof.
  unfold count_alarms, count_class. apply inj_le.
  induction l as [|d l IH]; [reflexivity|]. cbn [List.filter]. unfold alarm_counted at 1.
  destruct (shouldFilterAlarm c d); cbn [negb andb].
  - destruct (String.eqb (alarm_Class d) class); cbn [length]; lia.
  - destruct (String.eqb (alarm_Class d) class); cbn [length]; lia.
Qed.

Lemma count_alarms_major_minor (c : RpcClient) (l : list AlarmDetails) :
  (count_alarms c "Major" l + count_alarms c "Minor" l <= Z.of_nat (length l))%Z.
Proof.
  induction l as [|d l IH]; [unfold count_alarms; simpl; lia|].
  rewrite !count_alarms_cons. cbn [length]. rewrite Nat2Z.inj_succ.
  unfold alarm_counted.
  destruct (shouldFilterAlarm c d); cbn [negb andb]; [lia|].
  destruct (String.eqb (alarm_Class d) "Major") eqn:Hmajor.
  - apply String.eqb_eq in Hmajor. rewrite Hmajor. simpl. lia.
  - destruct (String.eqb (alarm_Class d) "Minor"); lia.
Qed.

(** X9.  The tallies of [AlarmCounter] are the conversions of two
    integers red and yellow that are not negative and together count at
    most the details of both commands; the filter only takes away: red
    is at most the number of details of class "Major", yellow at most the
    number of class "Minor". *)
Theorem AlarmCounter_tallies_bounded (c : RpcClient) (system chassis : AlarmRpc) :
  runCommandAndParse c "show system alarms" AlarmRpc_zero = (system, None) ->
  runCommandAndParse c "show chassis alarms" AlarmRpc_zero = (chassis, None) ->
  let details := alarm_Information_Details system ++ alarm_Information_Details chassis in
  (Z.of_nat (length details) <= max_int)%Z ->
  exists red yellow : Z,
    AlarmCounter c =
      (Some {| alarm.RedCount := float64_of_int red;
               alarm.YellowCount := float64_of_int yellow |}, None) /\
    (0 <= red)%Z /\ (0 <= yellow)%Z /\
    (red + yellow <= Z.of_nat (length details))%Z /\
    (red <= count_class "Major" details)%Z /\
    (yellow <= count_class "Minor" details)%Z /\
    (details = [] -> red = 0%Z /\ yellow = 0%Z).
Proof.
  intros Hsys Hcha details Hlen.
  exists (count_alarms c "Major" details), (count_alarms c "Minor" details).
  split; [exact (AlarmCounter_counts c system chassis Hsys Hcha Hlen)|].
  pose proof (count_alarms_bounds c "Major" details).
  pose proof (count_alarms_bounds c "Minor" details).
  split; [lia|]. split; [lia|]. split; [apply count_alarms_major_minor|].
  split; [apply count_alarms_le_class|]. split; [apply count_alarms_le_class|].
  intros Hnil. rewrite Hnil. split; reflexivity.
Qed.

Lemma filter_length_Permutation {A : Type} (p : A -> bool) (l1 l2 : list A) :
  Permutation l1 l2 -> length (List.filter p l1) = length (List.filter p l2).
Proof.
  intros Hperm. induction Hperm as [|a l1 l2 _ IH|a b l|l1 l2 l3 _ IH1 _ IH2].
  - reflexivity.
  - cbn [List.filter]. destruct (p a); cbn [length]; now rewrite IH.
  - cbn [List.filter]. destruct (p a), (p b); reflexivity.
  - now rewrite IH1.
Qed.

(** X10.  The result of [AlarmCounter] depends on the alarm details only
    as a multiset: two clients with the same filter, whose two commands
    report the same details in another order or split otherwise between
    the system and the chassis, return the same tallies. *)
Theorem AlarmCounter_order_independent (c1 c2 : RpcClient)
    (system1 chassis1 system2 chassis2 : AlarmRpc) :
  alarmFilter c1 = alarmFilter c2 ->
  runCommandAndParse c1 "show system alarms" AlarmRpc_zero = (system1, None) ->
  runCommandAndParse c1 "show chassis alarms" AlarmRpc_zero = (chassis1, None) ->
  runCommandAndParse c2 "show system alarms" AlarmRpc_zero = (system2, None) ->
  runCommandAndParse c2 "show chassis alarms" AlarmRpc_zero = (chassis2, None) ->
  Permutation
    (alarm_Information_Details system1 ++ alarm_Information_Details chassis1)
    (alarm_Information_Details system2 ++ alarm_Information_Details chassis2) ->
  (Z.of_nat (length (alarm_Information_Details system1 ++
                     alarm_Information_Details chassis1)) <= max_int)%Z ->
  AlarmCounter c1 = AlarmCounter c2.
Proof.
  intros Hfilter Hsys1 Hcha1 Hsys2 Hcha2 Hperm Hlen.
  assert (Hlen2 : (Z.of_nat (length (alarm_Information_Details system2 ++
                                     alarm_Information_Details chassis2)) <= max_int)%Z).
  { now rewrite <- (Permutation_length Hperm). }
  rewrite (AlarmCounter_counts c1 system1 chassis1 Hsys1 Hcha1 Hlen).
  rewrite (AlarmCounter_counts c2 system2 chassis2 Hsys2 Hcha2 Hlen2).
  assert (Hcount : forall class l1 l2,
            Permutation l1 l2 -> count_alarms c1 class l1 = count_alarms c2 class l2).
  { intros class l1 l2 Hl. unfold count_alarms. f_equal.
    rewrite (filter_length_Permutation _ _ _ Hl). f_equal.
    apply List.filter_ext. intros d. unfold alarm_counted, shouldFilterAlarm.
    now rewrite Hfilter. }
  now rewrite (Hcount "Major" _ _ Hperm), (Hcount "Minor" _ _ Hperm).
Qed.

(** *** ISIS adjacencies, all up or none *)

Lemma filter_length_all {A : Type} (p : A -> bool) (l : list A) :
  length (List.filter p l) = length l <-> forall a, In a l -> p a = true.
Proof.
  split.
  - intros Hlen. apply List.filter_length_forallb in Hlen.
    now apply forallb_forall.
  - intros Hall. rewrite List.forallb_filter_id; [reflexivity|].
    now apply forallb_forall.
Qed.

Lemma filter_length_none {A : Type} (p : A -> bool) (l : list A) :
  length (List.filter p l) = 0%nat <-> forall a, In a l -> p a = false.
Proof.
  induction l as [|a l IH]; [simpl; split; [intros _ a []|reflexivity]|].
  cbn [List.filter]. destruct (p a) eqn:Hp.
  - cbn [length]. split; [discriminate|].
    intros H. rewrite (H a) in Hp; [discriminate Hp|now left].
  - rewrite IH. split.
    + intros H a' [Ha'|Ha']; [now subst a'|now apply H].
    + intros H a' Ha'. apply H. now right.
Qed.

(** X11.  The two numbers of [IsisAdjancies] are equal exactly when every
    adjacency of the envelope is in the state "Up", and the total is 0
    exactly when the envelope has no adjacency. *)
Theorem IsisAdjancies_all_up (c : RpcClient) (x : IsisRpc) :
  runCommandAndParse c "show isis adjacency" IsisRpc_zero = (x, None) ->
  (Z.of_nat (length (isis_Information_Adjacencies x)) <= max_int)%Z ->
  exists up total : Z,
    IsisAdjancies c =
      (Some {| isis.Up := float64_of_int up; isis.Total := float64_of_int total |}, None) /\
    (up = total <->
     forall a, In a (isis_Information_Adjacencies x) -> adjacency_AdjacencyState a = "Up") /\
    (total = 0%Z <-> isis_Information_Adjacencies x = []) /\
    (up = 0%Z <->
     forall a, In a (isis_Information_Adjacencies x) -> adjacency_AdjacencyState a <> "Up").
Proof.
  intros Hrun Hlen.
  destruct (IsisAdjancies_up_le_total c x Hrun Hlen) as (up & total & Heq & Htotal & Hup & _).
  exists up, total. split; [exact Heq|]. subst up total. unfold count_up. split; [|split].
  - rewrite Nat2Z.inj_iff, filter_length_all.
    split; intros H a Ha; [apply String.eqb_eq|apply String.eqb_eq]; now apply H.
  - destruct (isis_Information_Adjacencies x); simpl; split; intros H;
      try reflexivity; try discriminate H; lia.
  - rewrite <- Nat2Z.inj_0, Nat2Z.inj_iff, filter_length_none.
    split; intros H a Ha.
    + intros Hstate. apply String.eqb_eq in Hstate. rewrite (H a Ha) in Hstate.
      discriminate Hstate.
    + apply String.eqb_neq. now apply H.
Qed.

(** *** Environment items without duplicates, and in any order *)

Lemma readings_snoc (items : list EnvironmentEntry) (item : EnvironmentEntry) :
  readings (items ++ [item]) =
  readings items ++
  match item_Temperature item with
  | Some value => [(item_Name item, float64_of_num value)]
  | None => []
  end.
Proof. unfold readings. rewrite flat_map_app. simpl. now rewrite app_nil_r. Qed.

Lemma EnvironmentItems_list_snoc (items : list EnvironmentEntry) (item : EnvironmentEntry) :
  EnvironmentItems_list (items ++ [item]) =
  EnvironmentItems_insert (EnvironmentItems_list items) item.
Proof. rewrite !EnvironmentItems_list_fold, fold_left_app. reflexivity. Qed.

Lemma readings_names (items : list EnvironmentEntry) (name : string) (v : float64) :
  EnvironmentItems_list items !! name = Some v -> In name (map fst (readings items)).
Proof.
  intros Hv. apply EnvironmentItems_list_origin in Hv.
  destruct Hv as (pre & item & post & value & Hitems & Hname & Htemp & _ & _).
  apply in_map_iff. exists (name, float64_of_num value). split; [reflexivity|].
  unfold readings. apply in_flat_map. exists item. split.
  - rewrite Hitems. apply in_or_app. right. now left.
  - rewrite Htemp, Hname. now left.
Qed.

Lemma EnvironmentItems_list_size (items : list EnvironmentEntry) :
  (size (EnvironmentItems_list items) <= length (readings items))%nat.
Proof.
  induction items as [|item items IH] using rev_ind; [reflexivity|].
  rewrite EnvironmentItems_list_snoc, readings_snoc, List.length_app.
  unfold EnvironmentItems_insert. destruct (item_Temperature item) as [value|].
  - rewrite map_size_insert. cbn [length].
    destruct (EnvironmentItems_list items !! item_Name item); unfold id; lia.
  - cbn [length]. lia.
Qed.

Lemma EnvironmentItems_list_readings (items : list EnvironmentEntry) :
  List.NoDup (map fst (readings items)) ->
  map_to_list (EnvironmentItems_list items) ≡ₚ readings items.
Proof.
  induction items as [|item items IH] using rev_ind; intros Hnodup.
  - unfold EnvironmentItems_list. simpl. now rewrite map_to_list_empty.
  - rewrite EnvironmentItems_list_snoc. rewrite readings_snoc in *.
    unfold EnvironmentItems_insert. destruct (item_Temperature item) as [value|].
    + rewrite map_app in Hnodup. cbn [map fst] in Hnodup.
      pose proof (NoDup_remove_1 _ _ _ Hnodup) as Hrest.
      pose proof (NoDup_remove_2 _ _ _ Hnodup) as Hfresh.
      rewrite app_nil_r in Hrest, Hfresh.
      assert (Hnone : EnvironmentItems_list items !! item_Name item = None).
      { destruct (EnvironmentItems_list items !! item_Name item) as [v|] eqn:Hv;
          [|reflexivity].
        exfalso. apply Hfresh. now apply readings_names with (v := v). }
      rewrite (map_to_list_insert _ _ _ Hnone), (IH Hrest).
      apply Permutation_cons_append.
    + rewrite app_nil_r in *. now apply IH.
Qed.

(** X12.  [EnvironmentItems] never returns more records than the
    envelope has items with a temperature reading, and the name of every
    record is the name of such an item.  When no two of those items have
    the same name nothing is dropped: the records are, in some order, the
    readings of the envelope. *)
Theorem EnvironmentItems_without_duplicates (c : RpcClient) (x : EnvironmentRpc) :
  runCommandAndParse c "show chassis environment" EnvironmentRpc_zero = (x, None) ->
  (length (fst (EnvironmentItems c)) <=
     length (readings (environment_Information_Items x)) <=
     length (environment_Information_Items x))%nat /\
  (forall i, In i (fst (EnvironmentItems c)) ->
     In (environment.Name i) (map fst (readings (environment_Information_Items x)))) /\
  (List.NoDup (map fst (readings (environment_Information_Items x))) ->
   Permutation (fst (EnvironmentItems c))
               (map EnvironmentItem_of (readings (environment_Information_Items x)))).
Proof.
  intros Hrun. rewrite (EnvironmentItems_records c x Hrun). simpl fst.
  split; [split|split].
  - rewrite length_map, (Permutation_length (map_range_perm _)), length_map_to_list.
    apply EnvironmentItems_list_size.
  - unfold readings. generalize (environment_Information_Items x) as items.
    induction items as [|item items IH]; [reflexivity|].
    cbn [flat_map]. rewrite List.length_app. cbn [length].
    destruct (item_Temperature item); cbn [length]; lia.
  - intros i Hi. apply in_map_iff in Hi. destruct Hi as [[name v] [Hi Hnv]]. subst i.
    apply map_range_lookup in Hnv. simpl. now apply readings_names with (v := v).
  - intros Hnodup. apply Permutation_map.
    rewrite map_range_perm. now apply EnvironmentItems_list_readings.
Qed.

(** X13.  The order in which Go ranges over the map changes the order of
    the records of [EnvironmentItems] and nothing else: under any two
    orders the results are permutations of each other, with the same
    error. *)
Theorem EnvironmentItems_any_order (MR' : MapRange) (c : RpcClient) :
  Permutation (fst (EnvironmentItems (MR := MR) c)) (fst (EnvironmentItems (MR := MR') c)) /\
  snd (EnvironmentItems (MR := MR) c) = snd (EnvironmentItems (MR := MR') c).
Proof.
  unfold EnvironmentItems.
  destruct (runCommandAndParse c "show chassis environment" EnvironmentRpc_zero)
    as [x [e|]]; [split; reflexivity|].
  split; [|reflexivity]. simpl fst.
  assert (Hmap : forall (R : MapRange) (m : gmap string float64),
            fold_left
              (fun items '(name, value) =>
                 items ++ [{| environment.Name := name;
                              environment.Temperature := value |}])
              (map_range (MapRange := R) m) [] =
            map EnvironmentItem_of (map_range (MapRange := R) m)).
  { intros R m. rewrite <- (app_nil_l (map _ _)). rewrite <- fold_left_append_map.
    apply fold_left_ext_in. intros items [name value] _. reflexivity. }
  rewrite !Hmap. apply Permutation_map.
  rewrite (map_range_perm (MapRange := MR)), (map_range_perm (MapRange := MR')).
  reflexivity.
Qed.

(** *** Optical diagnostics, entry by entry *)

Lemma InterfaceDiagnostics_of_filter (diags : list PhyDiagInterface) :
  flat_map InterfaceDiagnostics_of diags =
  map InterfaceDiagnostics_entry (List.filter has_optics diags).
Proof.
  induction diags as [|diag diags IH]; [reflexivity|].
  cbn [flat_map List.filter]. unfold InterfaceDiagnostics_of at 1, has_optics at 1.
  destruct (String.eqb (diag_Diagnostics_NA diag) "N/A"); cbn [negb app map];
    now rewrite IH.
Qed.

(** X14.  The records of [InterfaceDiagnostics] are the records of the
    entries not marked "N/A", in the order of the envelope: as many
    records as such entries, with their names, and none when every entry
    is marked. *)
Theorem InterfaceDiagnostics_keeps_order (c : RpcClient) (x : InterfaceDiagnosticsRpc) :
  runCommandAndParse c "show interfaces diagnostics optics" InterfaceDiagnosticsRpc_zero
    = (x, None) ->
  exists diagnostics,
    InterfaceDiagnostics c = (diagnostics, None) /\
    diagnostics =
      map InterfaceDiagnostics_entry
          (List.filter has_optics (diagnostics_Information_Diagnostics x)) /\
    map interface_diagnostics.Name diagnostics =
      map diag_Name (List.filter has_optics (diagnostics_Information_Diagnostics x)) /\
    (length diagnostics <= length (diagnostics_Information_Diagnostics x))%nat /\
    (diagnostics = [] <->
     forall diag, In diag (diagnostics_Information_Diagnostics x) ->
                  diag_Diagnostics_NA diag = "N/A").
Proof.
  intros Hrun. eexists. split; [apply InterfaceDiagnostics_records; exact Hrun|].
  rewrite InterfaceDiagnostics_of_filter. split; [reflexivity|]. split; [|split].
  - rewrite map_map. apply map_ext. intros diag.
    now destruct (InterfaceDiagnostics_entry_fields diag) as [Hname _].
  - rewrite length_map. apply List.filter_length_le.
  - split.
    + intros Hnil diag Hdiag.
      apply (f_equal (@length _)) in Hnil. rewrite length_map in Hnil. cbn [length] in Hnil.
      apply filter_length_none with (a := diag) in Hnil; [|exact Hdiag].
      unfold has_optics in Hnil. apply negb_false_iff in Hnil. now apply String.eqb_eq.
    + intros Hall.
      assert (Hnone : length (List.filter has_optics
                                (diagnostics_Information_Diagnostics x)) = 0%nat).
      { apply filter_length_none. intros diag Hdiag. unfold has_optics.
        rewrite (Hall diag Hdiag). reflexivity. }
      destruct (List.filter has_optics (diagnostics_Information_Diagnostics x));
        [reflexivity|discriminate Hnone].
Qed.

Lemma InterfaceDiagnostics_entry_measures (diag : PhyDiagInterface) :
  let d := InterfaceDiagnostics_entry diag in
  interface_diagnostics.LaserBiasCurrent d =
    float64_of_num (diag_Diagnostics_LaserBiasCurrent diag) /\
  interface_diagnostics.LaserOutputPower d =
    float64_of_num (diag_Diagnostics_LaserOutputPower diag) /\
  interface_diagnostics.ModuleTemperature d =
    float64_of_num (diag_Diagnostics_ModuleTemperature_Value diag).
Proof.
  unfold InterfaceDiagnostics_entry.
  destruct (ParseFloat (diag_Diagnostics_LaserOutputPowerDbm diag)) as [f1 [e1|]];
  destruct (ParseFloat (diag_Diagnostics_RxSignalAvgOpticalPowerDbm diag)) as [f2 [e2|]];
  destruct (ParseFloat (diag_Diagnostics_LaserRxOpticalPowerDbm diag)) as [f3 [e3|]];
  destruct (num_positive (diag_Diagnostics_ModuleVoltage diag));
  cbv zeta; simpl; repeat split.
Qed.

(** X15.  Every record of [InterfaceDiagnostics] comes from an entry not
    marked "N/A" and has its name, laser bias current, laser output power
    and module temperature, whichever branch is taken.  A dBm text that
    parses is reported as parsed: the laser output power always, the RX
    average when the module voltage is positive, the laser RX otherwise.
    The module voltage of a record is zero unless the voltage of the
    entry is positive. *)
Theorem InterfaceDiagnostics_record_origin (c : RpcClient) (x : InterfaceDiagnosticsRpc) :
  runCommandAndParse c "show interfaces diagnostics optics" InterfaceDiagnosticsRpc_zero
    = (x, None) ->
  forall d,
    In d (fst (InterfaceDiagnostics c)) ->
    exists diag,
      In diag (diagnostics_Information_Diagnostics x) /\
      diag_Diagnostics_NA diag <> "N/A" /\
      interface_diagnostics.Name d = diag_Name diag /\
      interface_diagnostics.LaserBiasCurrent d =
        float64_of_num (diag_Diagnostics_LaserBiasCurrent diag) /\
      interface_diagnostics.LaserOutputPower d =
        float64_of_num (diag_Diagnostics_LaserOutputPower diag) /\
      interface_diagnostics.ModuleTemperature d =
        float64_of_num (diag_Diagnostics_ModuleTemperature_Value diag) /\
      (forall f, ParseFloat (diag_Diagnostics_LaserOutputPowerDbm diag) = (f, None) ->
                 interface_diagnostics.LaserOutputPowerDbm d = f) /\
      (num_positive (diag_Diagnostics_ModuleVoltage diag) = true ->
       forall f, ParseFloat (diag_Diagnostics_RxSignalAvgOpticalPowerDbm diag) = (f, None) ->
                 interface_diagnostics.RxSignalAvgOpticalPowerDbm d = f) /\
      (num_positive (diag_Diagnostics_ModuleVoltage diag) = false ->
       forall f, ParseFloat (diag_Diagnostics_LaserRxOpticalPowerDbm diag) = (f, None) ->
                 interface_diagnostics.LaserRxOpticalPowerDbm d = f) /\
      (interface_diagnostics.ModuleVoltage d = float64_zero \/
       num_positive (diag_Diagnostics_ModuleVoltage diag) = true).
Proof.
  intros Hrun d Hd. rewrite (InterfaceDiagnostics_records c x Hrun) in Hd. simpl fst in Hd.
  apply in_flat_map in Hd. destruct Hd as [diag [Hdiag Hd]].
  unfold InterfaceDiagnostics_of in Hd.
  destruct (String.eqb (diag_Diagnostics_NA diag) "N/A") eqn:Hna; [destruct Hd|].
  destruct Hd as [Hd|[]]. subst d. exists diag.
  split; [exact Hdiag|]. split; [now apply String.eqb_neq|].
  destruct (InterfaceDiagnostics_entry_fields diag) as [Hname [Hout [Hpos Hneg]]].
  destruct (InterfaceDiagnostics_entry_measures diag) as [Hbias [Hpower Htemp]].
  split; [exact Hname|]. split; [exact Hbias|]. split; [exact Hpower|].
  split; [exact Htemp|]. unfold dbm_or_zero in *. split; [|split; [|split]].
  - intros f Hf. rewrite Hout, Hf. reflexivity.
  - intros Hv f Hf. destruct (Hpos Hv) as [_ [_ [Hdbm _]]]. rewrite Hdbm, Hf. reflexivity.
  - intros Hv f Hf. destruct (Hneg Hv) as [_ [Hdbm _]]. rewrite Hdbm, Hf. reflexivity.
  - destruct (num_positive (diag_Diagnostics_ModuleVoltage diag)); [now right|].
    left. now destruct (Hneg eq_refl) as [_ [_ [Hzero _]]].
Qed.

(** *** From the envelope to the number of samples *)

Lemma InterfaceStats_of_logical (phys : list PhyInterface) :
  logical_records (flat_map InterfaceStats_of phys) = logical_count phys.
Proof.
  unfold logical_records.
  pose proof (List.filter_length interfaces.IsPhysical (flat_map InterfaceStats_of phys))
    as Hsplit.
  pose proof (InterfaceStats_of_length phys) as Hlength.
  pose proof (InterfaceStats_of_physical phys) as Hphysical.
  unfold physical_records in Hphysical. lia.
Qed.

(** X16.  With the client as datasource, its command answered and
    decoded into strings that are valid UTF-8, and one valid inbound
    label value, [Collect] returns nil having added to the channel nine
    samples per physical entry of the envelope and two per logical
    interface. *)
Theorem Collect_from_client_total (c : RpcClient) (x : InterfaceRpc)
    (ch : list Metric) (labelValues : list string) :
  runCommandAndParse c "show interfaces statistics detail" InterfaceRpc_zero = (x, None) ->
  length labelValues = 1%nat ->
  forallb ValidString labelValues = true ->
  (forall phy, In phy (interface_Information_Interfaces x) -> valid_entry phy = true) ->
  snd (interfaces.Collect c ch labelValues) = Returns None /\
  length (fst (interfaces.Collect c ch labelValues)) =
  (length ch + 9 * length (interface_Information_Interfaces x) +
   2 * logical_count (interface_Information_Interfaces x))%nat.
Proof.
  intros Hrun Hlen Hlabels Hentries.
  rewrite (Collect_client_samples c x ch labelValues Hrun Hlen Hlabels Hentries).
  simpl fst. simpl snd. split; [reflexivity|].
  rewrite List.length_app, samples_of_total.
  rewrite InterfaceStats_of_physical, InterfaceStats_of_logical. lia.
Qed.

End MoreProperties.

(** ** The properties on the router of [Scenario] *)

Import prometheus rpc Fixture Scenario.

(** The third interface is administratively in test and operationally
    down: neither boolean is true, the two strings differ, and the
    error-status is true although the booleans are equal. *)
Lemma InterfaceStats_error_status_counterexample :
  exists s,
    s = InterfaceStats_phy ge_0_0_2 /\
    In s (fst (InterfaceStats client)) /\
    interfaces.IsPhysical s = true /\
    interfaces.Name s = "ge-0/0/2" /\
    interfaces.AdminStatus s = false /\
    interfaces.OperStatus s = false /\
    interfaces.ErrorStatus s = true /\
    ~ (interfaces.ErrorStatus s = true <->
       interfaces.AdminStatus s <> interfaces.OperStatus s).
Proof.
  exists (InterfaceStats_phy ge_0_0_2). split; [reflexivity|].
  split; [vm_compute; right; right; right; left; reflexivity|].
  repeat (split; [reflexivity|]).
  intros [H _]. exact (H eq_refl eq_refl).
Qed.

Lemma InterfaceStats_error_status_witness :
  runCommandAndParse client "show interfaces statistics detail" InterfaceRpc_zero
    = (interface_statistics, None) /\
  exists s,
    In s (fst (InterfaceStats client)) /\
    interfaces.Name s = "ge-0/0/1" /\
    interfaces.AdminStatus s = true /\
    interfaces.OperStatus s = false /\
    interfaces.ErrorStatus s = true.
Proof.
  assert (Hrun : runCommandAndParse client "show interfaces statistics detail"
                   InterfaceRpc_zero = (interface_statistics, None)) by reflexivity.
  split; [exact Hrun|].
  destruct (InterfaceStats_error_status client interface_statistics Hrun)
    as [stats [Heq [Hphy _]]].
  rewrite Heq. simpl fst.
  eexists. split.
  - apply Hphy. right. left. reflexivity.
  - repeat split.
Defined.

(** The filter "fan" matches the description "fan failure" of both major
    alarms: the red tally is 0, not 1. *)
Lemma AlarmCounter_filter_tally_counterexample :
  NewClient device false "fan" = Returns client /\
  alarm_Information_Details
    (fst (runCommandAndParse client "show system alarms" AlarmRpc_zero)) ++
  alarm_Information_Details
    (fst (runCommandAndParse client "show chassis alarms" AlarmRpc_zero)) =
    [{| alarm_Class := "Major"; alarm_Description := "fan failure"; alarm_Type := EmptyString |};
     {| alarm_Class := "Minor"; alarm_Description := "psu warn"; alarm_Type := EmptyString |};
     {| alarm_Class := "Major"; alarm_Description := "fan failure"; alarm_Type := EmptyString |}] /\
  AlarmCounter client =
    (Some {| alarm.RedCount := 0%float; alarm.YellowCount := 1%float |}, None) /\
  AlarmCounter client <>
    (Some {| alarm.RedCount := 1%float; alarm.YellowCount := 1%float |}, None).
Proof.
  split; [reflexivity|]. split; [reflexivity|].
  assert (H : AlarmCounter client =
              (Some {| alarm.RedCount := 0%float; alarm.YellowCount := 1%float |}, None))
    by (vm_compute; reflexivity).
  split; [exact H|]. rewrite H. intros Heq.
  assert (Hred : PrimFloat.eqb 0%float 1%float = true).
  { replace 1%float with 0%float by congruence. reflexivity. }
  vm_compute in Hred. discriminate Hred.
Qed.

Lemma AlarmCounter_filter_tally_witness :
  alarmFilter client = Some "fan" /\
  runCommandAndParse client "show system alarms" AlarmRpc_zero = (system_alarms, None) /\
  runCommandAndParse client "show chassis alarms" AlarmRpc_zero = (chassis_alarms, None) /\
  (Z.of_nat (length (alarm_Information_Details system_alarms ++
                     alarm_Information_Details chassis_alarms)) <= max_int)%Z /\
  AlarmCounter client =
    (Some {| alarm.RedCount := 0%float; alarm.YellowCount := 1%float |}, None).
Proof.
  assert (Hlen : (Z.of_nat (length (alarm_Information_Details system_alarms ++
                                    alarm_Information_Details chassis_alarms))
                  <= max_int)%Z) by (vm_compute; discriminate).
  assert (Hsys : runCommandAndParse client "show system alarms" AlarmRpc_zero
                   = (system_alarms, None)) by reflexivity.
  assert (Hcha : runCommandAndParse client "show chassis alarms" AlarmRpc_zero
                   = (chassis_alarms, None)) by reflexivity.
  assert (Hre : alarmFilter client = Some "fan") by reflexivity.
  repeat (split; [assumption|]).
  destruct (AlarmCounter_filter_tally client "fan" system_alarms chassis_alarms
              Hre Hsys Hcha Hlen) as [_ [_ [_ Hexample]]].
  apply (Hexample EmptyString EmptyString EmptyString); reflexivity.
Defined.

Lemma NewClient_empty_filter_witness :
  runCommandAndParse client_without_filter "show system alarms" AlarmRpc_zero
    = (system_alarms, None) /\
  runCommandAndParse client_without_filter "show chassis alarms" AlarmRpc_zero
    = (chassis_alarms, None) /\
  (Z.of_nat (length (alarm_Information_Details system_alarms ++
                     alarm_Information_Details chassis_alarms)) <= max_int)%Z /\
  NewClient device false EmptyString = Returns client_without_filter /\
  alarmFilter client_without_filter = None /\
  AlarmCounter client_without_filter =
    (Some {| alarm.RedCount := 2%float; alarm.YellowCount := 1%float |}, None).
Proof.
  assert (Hlen : (Z.of_nat (length (alarm_Information_Details system_alarms ++
                                    alarm_Information_Details chassis_alarms))
                  <= max_int)%Z) by (vm_compute; discriminate).
  assert (Hsys : runCommandAndParse client_without_filter "show system alarms"
                   AlarmRpc_zero = (system_alarms, None)) by reflexivity.
  assert (Hcha : runCommandAndParse client_without_filter "show chassis alarms"
                   AlarmRpc_zero = (chassis_alarms, None)) by reflexivity.
  repeat (split; [assumption|]).
  destruct (NewClient_empty_filter device false system_alarms chassis_alarms
              Hsys Hcha Hlen) as [Hnew [Hnone [_ Hcount]]].
  split; [exact Hnew|]. split; [exact Hnone|].
  change (AlarmCounter client_without_filter) with
    (AlarmCounter {| conn := device; rpc.debug := false; alarmFilter := None |}).
  rewrite Hcount. reflexivity.
Defined.


Lemma InterfaceDiagnostics_one_rx_branch_witness :
  runCommandAndParse client "show interfaces diagnostics optics" InterfaceDiagnosticsRpc_zero
    = (diagnostics_optics, None) /\
  map (fun d => (interface_diagnostics.Name d,
                 interface_diagnostics.ModuleVoltage d,
                 interface_diagnostics.RxSignalAvgOpticalPower d,
                 interface_diagnostics.LaserRxOpticalPower d))
      (fst (InterfaceDiagnostics client)) =
    [("xe-0/0/1", 3.25%float, 0%float, 0%float);
     ("xe-0/0/2", 0%float, 0%float, 0.75%float)].
Proof.
  assert (Hrun : runCommandAndParse client "show interfaces diagnostics optics"
                   InterfaceDiagnosticsRpc_zero = (diagnostics_optics, None))
    by reflexivity.
  split; [exact Hrun|].
  destruct (InterfaceDiagnostics_one_rx_branch client diagnostics_optics Hrun) as [Heq _].
  rewrite Heq. reflexivity.
Defined.

Lemma InterfaceDiagnostics_dbm_parse_failure_witness :
  runCommandAndParse client "show interfaces diagnostics optics" InterfaceDiagnosticsRpc_zero
    = (diagnostics_optics, None) /\
  snd (ParseFloat (diag_Diagnostics_LaserOutputPowerDbm xe_0_0_2)) <> None /\
  snd (InterfaceDiagnostics client) = None /\
  In (InterfaceDiagnostics_entry xe_0_0_2) (fst (InterfaceDiagnostics client)) /\
  interface_diagnostics.LaserOutputPowerDbm (InterfaceDiagnostics_entry xe_0_0_2) = 0%float.
Proof.
  assert (Hrun : runCommandAndParse client "show interfaces diagnostics optics"
                   InterfaceDiagnosticsRpc_zero = (diagnostics_optics, None))
    by reflexivity.
  split; [exact Hrun|]. split; [discriminate|].
  destruct (InterfaceDiagnostics_dbm_parse_failure client diagnostics_optics Hrun)
    as [Herr Hentry].
  split; [exact Herr|].
  assert (Hin : In xe_0_0_2 (diagnostics_Information_Diagnostics diagnostics_optics))
    by (right; right; left; reflexivity).
  assert (Hna : diag_Diagnostics_NA xe_0_0_2 <> "N/A") by discriminate.
  destruct (Hentry xe_0_0_2 Hin Hna) as [Hd [Hout _]].
  split; [exact Hd|]. eapply Hout. reflexivity.
Defined.

Lemma EnvironmentItems_last_write_wins_witness :
  runCommandAndParse client "show chassis environment" EnvironmentRpc_zero
    = (chassis_environment, None) /\
  In {| environment.Name := "FPC 0"; environment.Temperature := 45%float |}
     (fst (EnvironmentItems client)) /\
  ~ In {| environment.Name := "FPC 0"; environment.Temperature := 40%float |}
       (fst (EnvironmentItems client)).
Proof.
  assert (Hrun : runCommandAndParse client "show chassis environment" EnvironmentRpc_zero
                 = (chassis_environment, None)) by reflexivity.
  split; [exact Hrun|].
  destruct (EnvironmentItems_last_write_wins client chassis_environment Hrun)
    as [items [Heq [_ [Hlast _]]]].
  rewrite Heq. simpl fst.
  assert (Hlater : last_reading fpc_0_second [routing_engine_0]).
  { intros item' [Hitem|[]] Hname. subst item'. discriminate Hname. }
  destruct (Hlast [fpc_0_first; pem_0] fpc_0_second [routing_engine_0] 45%float
              eq_refl eq_refl Hlater) as [Hin Hone].
  split; [exact Hin|].
  intros Hold. apply Hone in Hold; [|reflexivity]. cbv in Hold.
  assert (Htemp : PrimFloat.eqb 40%float 45%float = true).
  { replace 45%float with 40%float by congruence. reflexivity. }
  vm_compute in Htemp. discriminate Htemp.
Defined.

Lemma errors_abort_without_records_witness :
  snd (runCommandAndParse failing_client "show system alarms" AlarmRpc_zero) = None /\
  snd (runCommandAndParse failing_client "show chassis alarms" AlarmRpc_zero)
    = Some timeout /\
  interfaces.datasource_InterfaceStats failing_client = ([], Some "EOF") /\
  AlarmCounter failing_client = (None, Some timeout) /\
  EnvironmentItems failing_client = ([], Some timeout) /\
  interfaces.Collect failing_client [] ["router1"] = ([], Returns (Some "EOF")).
Proof.
  assert (Hsys : snd (runCommandAndParse failing_client "show system alarms"
                        AlarmRpc_zero) = None) by reflexivity.
  assert (Hcha : snd (runCommandAndParse failing_client "show chassis alarms"
                        AlarmRpc_zero) = Some timeout) by reflexivity.
  assert (Henv : snd (runCommandAndParse failing_client "show chassis environment"
                        EnvironmentRpc_zero) = Some timeout) by reflexivity.
  assert (Hds : interfaces.datasource_InterfaceStats failing_client = ([], Some "EOF"))
    by reflexivity.
  split; [exact Hsys|]. split; [exact Hcha|]. split; [exact Hds|].
  pose proof (errors_abort_without_records failing_client timeout) as Htimeout.
  pose proof (errors_abort_without_records failing_client "EOF") as Heof.
  split; [|split].
  - apply Htimeout; assumption.
  - apply Htimeout. exact Henv.
  - eapply Heof. exact Hds.
Defined.

Lemma RoutingTables_protocol_order_witness :
  runCommandAndParse client "show route summary" RouteRpc_zero = (route_summary, None) /\
  map (fun t => (route.Name t, map route.ProtocolRouteCount.Name (route.Protocols t)))
      (fst (RoutingTables client)) =
    [("inet.0", ["direct"; "bgp"])].
Proof.
  assert (Hrun : runCommandAndParse client "show route summary" RouteRpc_zero
                 = (route_summary, None)) by reflexivity.
  split; [exact Hrun|].
  destruct (RoutingTables_protocol_order client route_summary Hrun)
    as [tables [Heq [Htables _]]].
  rewrite Heq, Htables. reflexivity.
Defined.

Lemma IsisAdjancies_up_le_total_witness :
  runCommandAndParse client "show isis adjacency" IsisRpc_zero = (isis_adjacency, None) /\
  (Z.of_nat (length (isis_Information_Adjacencies isis_adjacency)) <= max_int)%Z /\
  IsisAdjancies client = (Some {| isis.Up := 2%float; isis.Total := 3%float |}, None).
Proof.
  assert (Hrun : runCommandAndParse client "show isis adjacency" IsisRpc_zero
                 = (isis_adjacency, None)) by reflexivity.
  assert (Hlen : (Z.of_nat (length (isis_Information_Adjacencies isis_adjacency))
                  <= max_int)%Z) by (vm_compute; discriminate).
  split; [exact Hrun|]. split; [exact Hlen|].
  destruct (IsisAdjancies_up_le_total client isis_adjacency Hrun Hlen)
    as (up & total & Heq & Htotal & Hup & _).
  rewrite Heq, Htotal, Hup. reflexivity.
Defined.

(** ** The further properties on the routers of [Scenario] and [Routing] *)

Lemma BgpSessions_per_peer_witness :
  runCommandAndParse (X := Routing.XBgp) Routing.client "show bgp summary" BgpRpc_zero
    = (Routing.bgp_summary, None) /\
  map (fun s => (bgp.Ip s, bgp.Up s, bgp.Asn s))
      (fst (BgpSessions (XBgp := Routing.XBgp) Routing.client)) =
    [("192.0.2.1", true, "65001"); ("192.0.2.2", false, "65002")].
Proof.
  assert (Hrun : runCommandAndParse (X := Routing.XBgp) Routing.client "show bgp summary"
                   BgpRpc_zero = (Routing.bgp_summary, None)) by reflexivity.
  split; [exact Hrun|].
  destruct (BgpSessions_per_peer (XBgp := Routing.XBgp) Routing.client Routing.bgp_summary
              Hrun) as [sessions [Heq [Hsessions _]]].
  rewrite Heq, Hsessions. reflexivity.
Defined.

Lemma OspfAreas_per_area_witness :
  runCommandAndParse (X := Routing.XOspf3) Routing.client "show ospf3 overview" Ospf3Rpc_zero
    = (Routing.ospf3_overview, None) /\
  map ospf.Name (fst (OspfAreas (XOspf3 := Routing.XOspf3) Routing.client)) =
    ["0.0.0.0"; "0.0.0.1"].
Proof.
  assert (Hrun : runCommandAndParse (X := Routing.XOspf3) Routing.client
                   "show ospf3 overview" Ospf3Rpc_zero = (Routing.ospf3_overview, None))
    by reflexivity.
  split; [exact Hrun|].
  destruct (OspfAreas_per_area (XOspf3 := Routing.XOspf3) Routing.client
              Routing.ospf3_overview Hrun) as [areas [Heq [_ [Hnames _]]]].
  rewrite Heq. simpl fst. rewrite Hnames. reflexivity.
Defined.

Lemma InterfaceStats_records_in_order_witness :
  runCommandAndParse client "show interfaces statistics detail" InterfaceRpc_zero
    = (interface_statistics, None) /\
  map (fun s => (interfaces.Name s, interfaces.IsPhysical s, interfaces.Mac s))
      (fst (InterfaceStats client)) =
    [("ge-0/0/0", true, "00:11:22:33:44:55");
     ("ge-0/0/0.0", false, "00:11:22:33:44:55");
     ("ge-0/0/1", true, "00:11:22:33:44:56");
     ("ge-0/0/2", true, "00:11:22:33:44:57")] /\
  length (fst (InterfaceStats client)) = 4%nat.
Proof.
  assert (Hrun : runCommandAndParse client "show interfaces statistics detail"
                   InterfaceRpc_zero = (interface_statistics, None)) by reflexivity.
  split; [exact Hrun|].
  destruct (InterfaceStats_records_in_order client interface_statistics Hrun)
    as [_ [Hrows [_ [Hlength _]]]].
  rewrite Hrows, Hlength. split; reflexivity.
Defined.

Lemma Collect_appends_gauges_witness :
  snd (interfaces.datasource_InterfaceStats client) = None /\
  length ["router1"] = 1%nat /\
  (forall s, In s (fst (interfaces.datasource_InterfaceStats client)) ->
             forallb ValidString (labels_of ["router1"] s) = true) /\
  snd (interfaces.Collect client [] ["router1"]) = Returns None /\
  length (fst (interfaces.Collect client [] ["router1"])) = 29%nat.
Proof.
  assert (Hds : snd (interfaces.datasource_InterfaceStats client) = None) by reflexivity.
  assert (Hvalid : forall s,
            In s (fst (interfaces.datasource_InterfaceStats client)) ->
            forallb ValidString (labels_of ["router1"] s) = true).
  { intros s Hs. vm_compute in Hs.
    destruct Hs as [Hs|[Hs|[Hs|[Hs|[]]]]]; subst s; reflexivity. }
  split; [exact Hds|]. split; [reflexivity|]. split; [exact Hvalid|].
  destruct (Collect_appends_gauges client [] ["router1"])
    as [sent [Hfst [_ [Hreturns _]]]].
  destruct (Hreturns Hds eq_refl Hvalid) as [Hnil Hlength].
  split; [exact Hnil|]. rewrite Hfst, List.length_app, Hlength. reflexivity.
Defined.

Lemma Describe_announces_samples_witness :
  In (gauge interfaces.operStatusDesc 0%float
        ["router1"; "ge-0/0/1"; EmptyString; "00:11:22:33:44:56"])
     (fst (interfaces.collectForInterface (InterfaceStats_phy ge_0_0_1) [] ["router1"])) /\
  In interfaces.operStatusDesc (interfaces.Describe []).
Proof.
  assert (Hm : In (gauge interfaces.operStatusDesc 0%float
                     ["router1"; "ge-0/0/1"; EmptyString; "00:11:22:33:44:56"])
                  (fst (interfaces.collectForInterface (InterfaceStats_phy ge_0_0_1) []
                          ["router1"]))).
  { vm_compute. right. right. right. left. reflexivity. }
  split; [exact Hm|].
  destruct (Describe_announces_samples (G := Fixture.go) (U := Fixture.utf8))
    as [_ [_ [_ [_ Hsample]]]].
  exact (Hsample _ _ _ Hm).
Defined.

Lemma Collect_from_client_witness :
  runCommandAndParse client "show interfaces statistics detail" InterfaceRpc_zero
    = (interface_statistics, None) /\
  length ["router1"] = 1%nat /\
  forallb ValidString ["router1"] = true /\
  (forall phy, In phy (interface_Information_Interfaces interface_statistics) ->
               valid_entry phy = true) /\
  snd (interfaces.Collect client [] ["router1"]) = Returns None /\
  In (gauge interfaces.receiveBytesDesc 700%float
        ["router1"; "ge-0/0/0.0"; "unit 0"; "00:11:22:33:44:55"])
     (fst (interfaces.Collect client [] ["router1"])).
Proof.
  assert (Hrun : runCommandAndParse client "show interfaces statistics detail"
                   InterfaceRpc_zero = (interface_statistics, None)) by reflexivity.
  assert (Hentries : forall phy,
            In phy (interface_Information_Interfaces interface_statistics) ->
            valid_entry phy = true).
  { intros phy [Hphy|[Hphy|[Hphy|[]]]]; subst phy; reflexivity. }
  split; [exact Hrun|]. split; [reflexivity|]. split; [reflexivity|].
  split; [exact Hentries|].
  assert (Hlabels : forallb ValidString ["router1"] = true) by reflexivity.
  destruct (Collect_from_client client interface_statistics [] ["router1"]
              Hrun eq_refl Hlabels Hentries) as [Hnil [_ Hlog]].
  split; [exact Hnil|].
  assert (Hphy : In ge_0_0_0 (interface_Information_Interfaces interface_statistics))
    by (left; reflexivity).
  destruct (Hlog ge_0_0_0 _ Hphy (or_introl eq_refl)) as [Hreceive _].
  exact Hreceive.
Defined.

Lemma Collect_panics_on_label_count_witness :
  interfaces.datasource_InterfaceStats client
    = (flat_map InterfaceStats_of [ge_0_0_0; ge_0_0_1; ge_0_0_2], None) /\
  length (@nil string) <> 1%nat /\
  interfaces.Collect client [] [] = ([], Panics) /\
  interfaces.Collect client [] ["router1"; "lab"] = ([], Panics).
Proof.
  assert (Hds : interfaces.datasource_InterfaceStats client
                = (flat_map InterfaceStats_of [ge_0_0_0; ge_0_0_1; ge_0_0_2], None))
    by reflexivity.
  assert (Hnone : length (@nil string) <> 1%nat) by discriminate.
  assert (Htwo : length ["router1"; "lab"] <> 1%nat) by discriminate.
  split; [exact Hds|]. split; [exact Hnone|]. split.
  - apply (Collect_panics_on_label_count client _ [] [] Hds Hnone). discriminate.
  - apply (Collect_panics_on_label_count client _ [] ["router1"; "lab"] Hds Htwo).
    discriminate.
Defined.

Lemma AlarmCounter_tallies_bounded_witness :
  runCommandAndParse client "show system alarms" AlarmRpc_zero = (system_alarms, None) /\
  runCommandAndParse client "show chassis alarms" AlarmRpc_zero = (chassis_alarms, None) /\
  (Z.of_nat (length (alarm_Information_Details system_alarms ++
                     alarm_Information_Details chassis_alarms)) <= max_int)%Z /\
  exists red yellow : Z,
    AlarmCounter client =
      (Some {| alarm.RedCount := nearest_float64 red;
               alarm.YellowCount := nearest_float64 yellow |}, None) /\
    (red + yellow <= 3)%Z /\ (red <= 2)%Z /\ (yellow <= 1)%Z.
Proof.
  assert (Hsys : runCommandAndParse client "show system alarms" AlarmRpc_zero
                   = (system_alarms, None)) by reflexivity.
  assert (Hcha : runCommandAndParse client "show chassis alarms" AlarmRpc_zero
                   = (chassis_alarms, None)) by reflexivity.
  assert (Hlen : (Z.of_nat (length (alarm_Information_Details system_alarms ++
                                    alarm_Information_Details chassis_alarms))
                  <= max_int)%Z) by (vm_compute; discriminate).
  repeat (split; [assumption|]).
  destruct (AlarmCounter_tallies_bounded client system_alarms chassis_alarms Hsys Hcha Hlen)
    as (red & yellow & Heq & _ & _ & Hsum & Hred & Hyellow & _).
  exists red, yellow. split; [exact Heq|]. split; [exact Hsum|]. split; assumption.
Defined.

Lemma AlarmCounter_order_independent_witness :
  alarmFilter client = alarmFilter Routing.client /\
  runCommandAndParse Routing.client "show system alarms" AlarmRpc_zero
    = (chassis_alarms, None) /\
  runCommandAndParse Routing.client "show chassis alarms" AlarmRpc_zero
    = (system_alarms, None) /\
  AlarmCounter client = AlarmCounter Routing.client.
Proof.
  assert (Hsys1 : runCommandAndParse client "show system alarms" AlarmRpc_zero
                    = (system_alarms, None)) by reflexivity.
  assert (Hcha1 : runCommandAndParse client "show chassis alarms" AlarmRpc_zero
                    = (chassis_alarms, None)) by reflexivity.
  assert (Hsys2 : runCommandAndParse Routing.client "show system alarms" AlarmRpc_zero
                    = (chassis_alarms, None)) by reflexivity.
  assert (Hcha2 : runCommandAndParse Routing.client "show chassis alarms" AlarmRpc_zero
                    = (system_alarms, None)) by reflexivity.
  assert (Hfilter : alarmFilter client = alarmFilter Routing.client) by reflexivity.
  repeat (split; [assumption|]).
  apply (AlarmCounter_order_independent client Routing.client
           system_alarms chassis_alarms chassis_alarms system_alarms
           Hfilter Hsys1 Hcha1 Hsys2 Hcha2).
  - apply Permutation_refl.
  - vm_compute. discriminate.
Defined.

Lemma IsisAdjancies_all_up_witness :
  runCommandAndParse client "show isis adjacency" IsisRpc_zero = (isis_adjacency, None) /\
  (Z.of_nat (length (isis_Information_Adjacencies isis_adjacency)) <= max_int)%Z /\
  exists up total : Z,
    IsisAdjancies client =
      (Some {| isis.Up := nearest_float64 up; isis.Total := nearest_float64 total |}, None) /\
    up <> total /\ total <> 0%Z.
Proof.
  assert (Hrun : runCommandAndParse client "show isis adjacency" IsisRpc_zero
                 = (isis_adjacency, None)) by reflexivity.
  assert (Hlen : (Z.of_nat (length (isis_Information_Adjacencies isis_adjacency))
                  <= max_int)%Z) by (vm_compute; discriminate).
  split; [exact Hrun|]. split; [exact Hlen|].
  destruct (IsisAdjancies_all_up client isis_adjacency Hrun Hlen)
    as (up & total & Heq & Hall & Hempty & _).
  exists up, total. split; [exact Heq|]. split.
  - intros Hsame.
    pose proof (proj1 Hall Hsame {| adjacency_AdjacencyState := "Down" |}
                  (or_intror (or_introl eq_refl))) as Hdown.
    discriminate Hdown.
  - intros Hzero. pose proof (proj1 Hempty Hzero) as Hnil. discriminate Hnil.
Defined.

Lemma EnvironmentItems_without_duplicates_witness :
  runCommandAndParse (X := Routing.XEnvironment) Routing.client "show chassis environment"
    EnvironmentRpc_zero = (Routing.chassis_environment, None) /\
  Permutation
    (fst (EnvironmentItems (XEnvironment := Routing.XEnvironment) Routing.client))
    [{| environment.Name := "FPC 1"; environment.Temperature := 41%float |};
     {| environment.Name := "Routing Engine"; environment.Temperature := 38%float |}].
Proof.
  assert (Hrun : runCommandAndParse (X := Routing.XEnvironment) Routing.client
                   "show chassis environment" EnvironmentRpc_zero
                 = (Routing.chassis_environment, None)) by reflexivity.
  split; [exact Hrun|].
  destruct (EnvironmentItems_without_duplicates (XEnvironment := Routing.XEnvironment)
              Routing.client Routing.chassis_environment Hrun) as [_ [_ Hperm]].
  apply Hperm. simpl.
  repeat (constructor; [simpl; intuition discriminate|]). constructor.
Defined.

Lemma EnvironmentItems_any_order_witness :
  fst (EnvironmentItems (MR := Routing.reversed_order) client) =
    rev (fst (EnvironmentItems client)) /\
  Permutation (fst (EnvironmentItems client))
              (fst (EnvironmentItems (MR := Routing.reversed_order) client)).
Proof.
  split; [reflexivity|].
  exact (proj1 (EnvironmentItems_any_order Routing.reversed_order client)).
Defined.

Lemma InterfaceDiagnostics_keeps_order_witness :
  runCommandAndParse client "show interfaces diagnostics optics" InterfaceDiagnosticsRpc_zero
    = (diagnostics_optics, None) /\
  map interface_diagnostics.Name (fst (InterfaceDiagnostics client)) =
    ["xe-0/0/1"; "xe-0/0/2"].
Proof.
  assert (Hrun : runCommandAndParse client "show interfaces diagnostics optics"
                   InterfaceDiagnosticsRpc_zero = (diagnostics_optics, None))
    by reflexivity.
  split; [exact Hrun|].
  destruct (InterfaceDiagnostics_keeps_order client diagnostics_optics Hrun)
    as [diagnostics [Heq [_ [Hnames _]]]].
  rewrite Heq. simpl fst. rewrite Hnames. reflexivity.
Defined.

Lemma InterfaceDiagnostics_record_origin_witness :
  runCommandAndParse client "show interfaces diagnostics optics" InterfaceDiagnosticsRpc_zero
    = (diagnostics_optics, None) /\
  In (InterfaceDiagnostics_entry xe_0_0_1) (fst (InterfaceDiagnostics client)) /\
  exists diag,
    In diag [xe_0_0_0; xe_0_0_1; xe_0_0_2] /\
    interface_diagnostics.Name (InterfaceDiagnostics_entry xe_0_0_1) = diag_Name diag.
Proof.
  assert (Hrun : runCommandAndParse client "show interfaces diagnostics optics"
                   InterfaceDiagnosticsRpc_zero = (diagnostics_optics, None))
    by reflexivity.
  assert (Hin : In (InterfaceDiagnostics_entry xe_0_0_1) (fst (InterfaceDiagnostics client))).
  { vm_compute. left. reflexivity. }
  split; [exact Hrun|]. split; [exact Hin|].
  destruct (InterfaceDiagnostics_record_origin client diagnostics_optics Hrun _ Hin)
    as [diag [Hdiag [_ [Hname _]]]].
  exists diag. split; assumption.
Defined.

Lemma Collect_from_client_total_witness :
  runCommandAndParse client "show interfaces statistics detail" InterfaceRpc_zero
    = (interface_statistics, None) /\
  length ["router1"] = 1%nat /\
  forallb ValidString ["router1"] = true /\
  (forall phy, In phy (interface_Information_Interfaces interface_statistics) ->
               valid_entry phy = true) /\
  length (fst (interfaces.Collect client [] ["router1"])) = 29%nat.
Proof.
  assert (Hrun : runCommandAndParse client "show interfaces statistics detail"
                   InterfaceRpc_zero = (interface_statistics, None)) by reflexivity.
  assert (Hentries : forall phy,
            In phy (interface_Information_Interfaces interface_statistics) ->
            valid_entry phy = true).
  { intros phy [Hphy|[Hphy|[Hphy|[]]]]; subst phy; reflexivity. }
  split; [exact Hrun|]. split; [reflexivity|]. split; [reflexivity|].
  split; [exact Hentries|].
  assert (Hlabels : forallb ValidString ["router1"] = true) by reflexivity.
  destruct (Collect_from_client_total client interface_statistics [] ["router1"]
              Hrun eq_refl Hlabels Hentries) as [_ Hlength].
  rewrite Hlength. reflexivity.
Defined.
